(** * tfsemb_main.py: token windows, logit gathering and prediction scoring

    A shallow embedding of [code/tfsemb_main.py].  Python lists and tuples
    are Rocq lists, Python ints are [Z], a tensor of shape
    (batch, position, _) is a list of rows with its width, and a raised
    exception is the left injection of [result].  The pretrained model, the
    tokenizer, the GloVe table and the host machine are external to the
    script: each is a type class, and every definition and theorem holds for
    any instance of it. *)

From Stdlib Require Import ZArith Lia.
From stdpp Require Import base decidable option list strings pretty sorting gmap.

(** ** Exceptions *)

Inductive exn : Type :=
| ValueError
| IndexError
| KeyError
| TypeError
| RuntimeError
| AssertionError
| AttributeError
| Exception (msg : string)
| SystemExit (code : Z).

Definition result (A : Type) : Type := (exn + A)%type.

Definition Ok {A} (a : A) : result A := inr a.
Definition raise {A} (e : exn) : result A := inl e.

#[global] Instance result_ret : MRet result := fun A a => inr a.
#[global] Instance result_bind : MBind result := fun A B k m =>
  match m with
  | inl e => inl e
  | inr a => k a
  end.

Definition assert (b : bool) : result unit :=
  if b then Ok tt else raise AssertionError.

Fixpoint mapE {A B} (f : A -> result B) (l : list A) : result (list B) :=
  match l with
  | [] => Ok []
  | a :: l' => b ← f a; bs ← mapE f l'; Ok (b :: bs)
  end.

(** ** Python sequence indexing *)

Module Py.

(** [s[1:]] *)
Definition tail_slice {A} (s : list A) : list A := drop 1 s.

(** [s[:-1]] *)
Definition init_slice {A} (s : list A) : list A := take (length s - 1) s.

(** [s[0]] *)
Definition first {A} (s : list A) : result A :=
  match s with
  | [] => raise IndexError
  | a :: _ => Ok a
  end.

(** [s[i]] for a Python int [i] *)
Definition index {A} (s : list A) (i : Z) : result A :=
  let n := Z.of_nat (length s) in
  if ((0 <=? i) && (i <? n))%Z then
    match s !! Z.to_nat i with Some a => Ok a | None => raise IndexError end
  else if ((- n <=? i) && (i <? 0))%Z then
    match s !! Z.to_nat (n + i) with Some a => Ok a | None => raise IndexError end
  else raise IndexError.

(** [s[-k]] for [k >= 1]: the k-th element from the end. *)
Definition from_end {A} (k : nat) (s : list A) : result A :=
  if length s <? k then raise IndexError
  else match s !! (length s - k) with
       | Some a => Ok a
       | None => raise IndexError
       end.

End Py.

(** ** window *)

(** The [for elem in it] loop of [window]: [result] is the window yielded
    last, [it] what the iterator still holds. *)
Fixpoint window_loop {A} (result : list A) (it : list A) : list (list A) :=
  match it with
  | [] => []
  | elem :: it' =>
      let result' := Py.tail_slice result ++ [elem] in
      result' :: window_loop result' it'
  end.

(** [sys.maxsize] of a 64-bit CPython: the largest size of a container,
    hence of every Python sequence. *)
Definition sys_maxsize : Z := 2 ^ 63 - 1.

(** [list(window(seq, n))].  [islice(it, n)] raises ValueError for a stop
    [n] that is negative or above [sys.maxsize]; otherwise it takes the
    first [n] elements off [it]. *)
Definition window {A} (seq : list A) (n : Z) : result (list (list A)) :=
  if ((n <? 0) || (sys_maxsize <? n))%Z then raise ValueError
  else
    let k := Z.to_nat n in
    let result := take k seq in
    let it := drop k seq in
    Ok ((if length result <=? k then [result] else []) ++ window_loop result it).

(** ** Tensors

    A tensor of shape (rows, width, _): the last axis (embedding or
    vocabulary) stays inside the element type.  Every row of a tensor has
    length [t_width]; a tensor knows its width even when it has no row. *)

Record tensor (A : Type) : Type := Tensor { t_rows : list (list A); t_width : nat }.
Arguments Tensor {A} _ _.
Arguments t_rows {A} _.
Arguments t_width {A} _.

(** [torch.tensor(rows)].  The shape is read off the first row.  When that
    row is empty the tensor has no element and the other rows are not looked
    at: the shape is (number of rows, 0).  Otherwise every row must have the
    length of the first: ragged nested sequences are refused. *)
Definition torch_tensor {A} (rows : list (list A)) : result (tensor A) :=
  match rows with
  | [] => Ok (Tensor [] 0)
  | r :: rs =>
      if length r =? 0 then Ok (Tensor (map (fun _ => []) rows) 0)
      else if forallb (fun r' => length r' =? length r) rs
      then Ok (Tensor rows (length r))
      else raise ValueError
  end.

(** [t[0, :-1]] *)
Definition first_row_init {A} (t : tensor A) : result (list A) :=
  r ← Py.first (t_rows t); Ok (Py.init_slice r).

(** [t[0, 1:]] *)
Definition first_row_tail {A} (t : tensor A) : result (list A) :=
  r ← Py.first (t_rows t); Ok (Py.tail_slice r).

(** [t[from:, -k]]: column [-k] of the rows from index [from] on; the index
    is checked against the width of the tensor, whatever rows are left. *)
Definition column_from_end {A} (from k : nat) (t : tensor A) : result (list A) :=
  if t_width t <? k then raise IndexError
  else mapE (Py.from_end k) (drop from (t_rows t)).

(** [torch.cat(ts, dim=0)] on the gathered pieces; an empty list of tensors
    is refused. *)
Definition torch_cat {A} (ts : list (list A)) : result (list A) :=
  match ts with
  | [] => raise RuntimeError
  | _ => Ok (concat ts)
  end.

(** [DataLoader(input_ids, batch_size=2, shuffle=False)] *)
Fixpoint DataLoader {A} (width : nat) (rows : list (list A)) : list (tensor A) :=
  match rows with
  | [] => []
  | [a] => [Tensor [a] width]
  | a :: b :: rest => Tensor [a; b] width :: DataLoader width rest
  end.

(** ** gather_logits *)

Definition gather_logits {V} (batch_num : nat) (logits : tensor V) : result (list V) :=
  if batch_num =? 0 then
    if length (t_rows logits) =? 1 then
      first_row_init logits
    else
      first_sentence_preds ← first_row_init logits;
      rem_sentences_preds ← column_from_end 1 2 logits;
      Ok (first_sentence_preds ++ rem_sentences_preds)
  else
    column_from_end 0 2 logits.

(** ** extract_token_embeddings_new *)

(** A row of the embedding array: the all-NaN row put in front, or a hidden
    state taken from the model. *)
Inductive embedding (E : Type) : Type :=
| nan_row
| hidden (e : E).
Arguments nan_row {E}.
Arguments hidden {E} _.

Definition extract_token_embeddings_new {E} (concat_output : list (list E))
  : result (list (embedding E)) :=
  concatenated_embeddings ← torch_cat concat_output;
  let init_token_embedding := [nan_row] in
  Ok (init_token_embedding ++ map hidden concatenated_embeddings).

(** ** The external collaborators *)

(** The pretrained tokenizer (transformers), and [str_strip], the
    [.str.strip()] of pandas that [check_token_is_root] applies to the
    strings the tokenizer gives back: it removes the leading and trailing
    white space of Unicode. *)
Class Tokenizer : Type := {
  tokenize : string -> list string;
  convert_tokens_to_ids : string -> Z;
  convert_ids_to_tokens : Z -> string;
  convert_tokens_to_string : string -> string;
  max_len_single_sentence : Z;
  str_strip : string -> string }.

(** The pretrained causal language model and the tensor operations applied
    to its scores.  For an input window [w] the model returns one hidden
    state and one row of vocabulary scores per position of [w]; softmax,
    max and gather act on one row of scores at a time (dim=1). *)
Class LanguageModel : Type := {
  Emb : Type;
  Logit : Type;
  ProbRow : Type;
  Prob : Type;
  hidden_state : list Z -> nat -> Emb;
  lm_logits : list Z -> nat -> Logit;
  softmax : Logit -> ProbRow;
  row_max : ProbRow -> Prob * Z;
  prob_at : ProbRow -> Z -> Prob }.

(** The GloVe table returned by [api.load('glove-wiki-gigaword-50')]. *)
Class Glove : Type := {
  Vec : Type;
  glove50 : gmap string Vec }.

(** [model(batch)] seen through one of its outputs: shape (rows, width, _). *)
Definition forward {V} (out : list Z -> nat -> V) (batch : tensor Z) : tensor V :=
  Tensor (map (fun w => map (out w) (seq 0 (length w))) (t_rows batch)) (t_width batch).

(** ** get_correct_prediction_probability *)

(** [probs.gather(1, true_y).squeeze(-1)]: one probability per index row;
    the index may not have more rows than [probs]. *)
Definition torch_gather `{LanguageModel} (probs : list ProbRow) (true_y : list Z)
  : result (list Prob) :=
  if length probs <? length true_y then raise RuntimeError
  else Ok (zip_with prob_at probs true_y).

Definition get_correct_prediction_probability `{Tokenizer} `{LanguageModel}
    (concat_logits : list (list Logit)) (sentence_token_ids : list (list Z))
  : result (list (option string) * list (option Prob) * list (option Prob)) :=
  prediction_scores ← torch_cat concat_logits;
  if length prediction_scores =? 0 then Ok ([None], [None], [None])
  else
    true_y ←
      (if length prediction_scores =? 1 then
         s0 ← Py.first sentence_token_ids; Ok (Py.tail_slice s0)
       else
         sti ← torch_tensor sentence_token_ids;
         head ← first_row_tail sti;
         lasts ← column_from_end 1 1 sti;
         Ok (head ++ lasts));
    let prediction_probabilities := map softmax prediction_scores in
    let top1 := map row_max prediction_probabilities in
    let predicted_tokens := map (fun vi => convert_ids_to_tokens (snd vi)) top1 in
    let predicted_words := map convert_tokens_to_string predicted_tokens in
    let top1_probabilities := map (fun vi => Some (fst vi)) top1 ++ [None] in
    let top1_words := map Some predicted_words ++ [None] in
    picked ← torch_gather prediction_probabilities true_y;
    let true_y_probability := map Some picked ++ [None] in
    Ok (top1_words, top1_probabilities, true_y_probability).

(** ** The batch loop and the body of the conversation loop *)

(** [for batch_num, batch in enumerate(data_dl)], from [batch_num] on: the
    pieces appended to [concat_output] and [concat_logits]. *)
Fixpoint run_batches `{LanguageModel} (batch_num : nat) (data_dl : list (tensor Z))
  : result (list (list Emb) * list (list Logit)) :=
  match data_dl with
  | [] => Ok ([], [])
  | batch :: rest =>
      item1 ← gather_logits batch_num (forward hidden_state batch);
      item2 ← gather_logits batch_num (forward lm_logits batch);
      '(concat_output, concat_logits) ← run_batches (S batch_num) rest;
      Ok (item1 :: concat_output, item2 :: concat_logits)
  end.

(** One turn of [for conversation in df.conversation_id.unique()] in
    [generate_embeddings_with_context], for the token ids of that
    conversation. *)
Definition conversation_step `{Tokenizer} `{LanguageModel}
    (context_length : Z) (token_list : list Z)
  : result (list (embedding Emb) * list (option string)
            * list (option Prob) * list (option Prob)) :=
  windows ← window token_list context_length;
  input_ids ← torch_tensor windows;
  let data_dl := DataLoader (t_width input_ids) (t_rows input_ids) in
  '(concat_output, concat_logits) ← run_batches 0 data_dl;
  extracted_embeddings ← extract_token_embeddings_new concat_output;
  _ ← assert (length extracted_embeddings =? length token_list);
  '(top1_word, top1_prob, true_y_prob) ←
    get_correct_prediction_probability concat_logits windows;
  Ok (extracted_embeddings, top1_word, top1_prob, true_y_prob).

(** ** Word and token tables *)

(** The labels table has whatever columns the pickle holds; the script reads
    [word] and [conversation_id]. *)
Class Labels (R : Type) : Type := {
  word : R -> string;
  conversation_id : R -> Z }.

(** The column added by [check_token_is_root] is named after the model. *)
Inductive root_tag : Type :=
| gpt2_token_is_root (b : bool)
| bert_token_is_root (b : bool).

Record token_row `{Glove} (R : Type) : Type := TokenRow {
  label : R;
  glove50_embeddings : option Vec;
  token : string;
  token_id : Z;
  token_is_root : root_tag }.
Arguments TokenRow {_ R} _ _ _ _ _.
Arguments label {_ R} _.
Arguments glove50_embeddings {_ R} _.
Arguments token {_ R} _.
Arguments token_id {_ R} _.
Arguments token_is_root {_ R} _.

Record output_row `{Glove} `{LanguageModel} (R : Type) : Type := OutputRow {
  row : token_row R;
  embeddings : embedding Emb;
  top1_pred : option string;
  top1_pred_prob : option Prob;
  true_pred_prob : option Prob }.
Arguments OutputRow {_ _ R} _ _ _ _ _.
Arguments row {_ _ R} _.
Arguments embeddings {_ _ R} _.
Arguments top1_pred {_ _ R} _.
Arguments top1_pred_prob {_ _ R} _.
Arguments true_pred_prob {_ _ R} _.

(** The parsed command line. *)
Module Args.
Record t : Type := Build {
  model_name : string;
  embedding_type : string;
  context_length : Z;
  save_predictions : bool;
  save_hidden_states : bool;
  subject : string;
  history : bool;
  conversation_id : Z }.

Definition set_context_length (args : t) (n : Z) : t :=
  Build (model_name args) (embedding_type args) n (save_predictions args)
        (save_hidden_states args) (subject args) (history args) (conversation_id args).
End Args.

(** ** get_vector and add_glove_embeddings *)

(** [glove.get_vector(x)] of gensim: KeyError for a word outside the table. *)
Definition KeyedVectors_get_vector {V} (glove : gmap string V) (x : string) : result V :=
  match glove !! x with
  | Some v => Ok v
  | None => raise KeyError
  end.

Definition get_vector {V} (x : string) (glove : gmap string V) : result (option V) :=
  match KeyedVectors_get_vector glove x with
  | inr v => Ok (Some v)
  | inl KeyError => Ok None
  | inl e => raise e
  end.

Definition add_glove_embeddings `{Glove} `{Labels R} (df : list R) (dim : option Z)
  : result (list (R * option Vec)) :=
  if decide (dim = Some 50%Z) then
    let glove := glove50 in
    mapE (fun r => v ← get_vector (word r) glove; Ok (r, v)) df
  else raise (Exception "Incorrect glove dimension").

(** ** tokenize_and_explode *)

(** [string.punctuation], one string per character, by character code:
    33-47, 58-64, 91-96 and 123-126. *)
Definition punctuation : list string :=
  map (fun n => String (Ascii.ascii_of_nat n) EmptyString)
      (seq 33 15 ++ seq 58 7 ++ seq 91 6 ++ seq 123 4).

(** A cell of the [token] column after [explode]: a token, or NaN for a word
    whose token list is empty. *)
Definition cell : Type := option string.

(** [df.explode('token', ignore_index=True)]: one row per token; a row whose
    list is empty is kept once, with NaN. *)
Definition explode {X} (df : list (X * list string)) : list (X * cell) :=
  flat_map (fun r =>
              match snd r with
              | [] => [(fst r, None)]
              | ts => map (fun tok => (fst r, Some tok)) ts
              end) df.

Definition isin (c : cell) (values : list string) : bool :=
  match c with
  | Some s => bool_decide (s ∈ values)
  | None => false
  end.

Definition remove_punctuation {X} (df : list (X * cell)) : list (X * cell) :=
  List.filter (fun r => negb (isin (snd r) punctuation)) df.

(** [tokenizer.convert_tokens_to_ids] takes a string (or a list of them); on
    the float NaN it fails iterating over it. *)
Definition convert_token_to_idx `{Tokenizer} {X} (df : list (X * cell))
  : result (list (X * string * Z)) :=
  mapE (fun r =>
          match snd r with
          | Some tok => Ok (fst r, tok, convert_tokens_to_ids tok)
          | None => raise TypeError
          end) df.

Definition check_token_is_root `{Tokenizer} `{Glove} `{Labels R}
    (args : Args.t) (df : list (R * option Vec * string * Z))
  : result (list (token_row R)) :=
  if String.eqb (Args.embedding_type args) "gpt2" then
    Ok (map (fun '(r, g, tok, id) =>
               TokenRow r g tok id
                 (gpt2_token_is_root
                    (String.eqb (word r) (str_strip (convert_tokens_to_string tok)))))
            df)
  else if String.eqb (Args.embedding_type args) "bert" then
    Ok (map (fun '(r, g, tok, id) =>
               TokenRow r g tok id (bert_token_is_root (String.eqb (word r) tok)))
            df)
  else raise (Exception "embedding type doesn't exist").

Definition tokenize_and_explode `{Tokenizer} `{Glove} `{Labels R}
    (args : Args.t) (df : list R) : result (list (token_row R)) :=
  df ← add_glove_embeddings df (Some 50%Z);
  let df := map (fun r => (r, tokenize (word (fst r)))) df in
  let df := explode df in
  let df := remove_punctuation df in
  df ← convert_token_to_idx df;
  check_token_is_root args df.

(** ** generate_embeddings_with_context *)

(** [Series.unique()]: the values in order of first appearance. *)
Fixpoint unique (l : list Z) : list Z :=
  match l with
  | [] => []
  | x :: l' => x :: List.filter (fun y => negb (y =? x)%Z) (unique l')
  end.

(** [np.concatenate(arrays, axis=0)]: refuses an empty list of arrays. *)
Definition np_concatenate {A} (arrays : list (list A)) : result (list A) :=
  match arrays with
  | [] => raise ValueError
  | _ => Ok (concat arrays)
  end.

(** [df[name] = values] for a list of values: the lengths must agree. *)
Definition set_column {X A} (df : list X) (values : list A) : result (list (X * A)) :=
  if length values =? length df then Ok (zip df values) else raise ValueError.

(** The conversation loop: what it leaves in [final_embeddings],
    [final_top1_word], [final_top1_prob] and [final_true_y_prob]. *)
Fixpoint conversation_loop `{Tokenizer} `{LanguageModel} `{Glove} `{Labels R}
    (context_length : Z) (df : list (token_row R)) (conversations : list Z)
  : result (list (list (embedding Emb)) * list (option string)
            * list (option Prob) * list (option Prob)) :=
  match conversations with
  | [] => Ok ([], [], [], [])
  | conversation :: rest =>
      let token_list :=
        map token_id
            (List.filter (fun r => (conversation_id (label r) =? conversation)%Z) df) in
      '(extracted_embeddings, top1_word, top1_prob, true_y_prob) ←
        conversation_step context_length token_list;
      '(final_embeddings, final_top1_word, final_top1_prob, final_true_y_prob) ←
        conversation_loop context_length df rest;
      Ok (extracted_embeddings :: final_embeddings, top1_word ++ final_top1_word,
          top1_prob ++ final_top1_prob, true_y_prob ++ final_true_y_prob)
  end.

(** The table [generate_embeddings_with_context] has built when it comes to
    its last statement but one, the call of [save_pickle] (lines 249 to
    297). *)
Definition embeddings_table `{Tokenizer} `{LanguageModel} `{Glove} `{Labels R}
    (args : Args.t) (df : list R) : result (list (output_row R)) :=
  df ← tokenize_and_explode args df;
  '(final_embeddings, final_top1_word, final_top1_prob, final_true_y_prob) ←
    conversation_loop (Args.context_length args) df
      (unique (map (fun r => conversation_id (label r)) df));
  all_embeddings ← np_concatenate final_embeddings;
  df1 ← set_column df all_embeddings;
  df2 ← set_column df1 final_top1_word;
  df3 ← set_column df2 final_top1_prob;
  df4 ← set_column df3 final_true_y_prob;
  Ok (map (fun '(r, e, w, p, t) => OutputRow r e w p t) df4).

(** [output_file] is [args.output_file], an attribute that exists only when
    [setup_environ] was given a conversation id.  Writing the pickle itself
    is left out; the table is returned. *)
Definition generate_embeddings_with_context `{Tokenizer} `{LanguageModel} `{Glove} `{Labels R}
    (args : Args.t) (output_file : option string) (df : list R)
  : result (list (output_row R)) :=
  df ← embeddings_table args df;
  _ ← match output_file with
      | Some _ => Ok tt
      | None => raise AttributeError
      end;
  Ok df.

(** [generate_embeddings] passes three arguments to [tokenize_and_explode],
    which takes two: the call fails before anything is tokenized. *)
Definition generate_embeddings {R} (args : Args.t) (df : list R) : result unit :=
  raise TypeError.

(** [gen_word2vec_embeddings] returns nothing: its table goes to
    [save_pickle], whose writing is left out. *)
Definition gen_word2vec_embeddings `{Glove} `{Labels R}
    (output_file : option string) (df : list R) : result unit :=
  let glove := glove50 in
  df ← mapE (fun r => v ← get_vector (word r) glove; Ok (r, v)) df;
  match output_file with
  | Some _ => Ok tt
  | None => raise AttributeError
  end.

(** ** select_tokenizer_and_model

    The choice of the classes, the exit on an unknown embedding type and the
    context length.  Creating the cache directory and loading the pretrained
    model and tokenizer (lines 416 to 424) are left out. *)

Record selection : Type := Selection {
  tokenizer_class : string;
  model_class : string;
  pretrained_name : string }.

Definition select_tokenizer_and_model `{Tokenizer} (args : Args.t)
  : result (option selection * Args.t) :=
  let embedding_type := Args.embedding_type args in
  choice ←
    (if String.eqb embedding_type "gpt2" then
       Ok (Some (Selection "GPT2Tokenizer" "GPT2LMHeadModel" "gpt2-xl"))
     else if String.eqb embedding_type "roberta" then
       Ok (Some (Selection "RobertaTokenizer" "RobertaForMaskedLM" "roberta"))
     else if String.eqb embedding_type "bert" then
       Ok (Some (Selection "BertTokenizer" "BertForMaskedLM"
                           "bert-large-uncased-whole-word-masking"))
     else if String.eqb embedding_type "bart" then
       Ok (Some (Selection "BartTokenizer" "BartForConditionalGeneration" "bart"))
     else if String.eqb embedding_type "glove50" then
       Ok None
     else raise (SystemExit 1));
  match choice with
  | None => Ok (None, args)
  | Some classes =>
      if Args.history args && (Args.context_length args <=? 0)%Z then
        let args := Args.set_context_length args max_len_single_sentence in
        _ ← assert (Args.context_length args <=? max_len_single_sentence)%Z;
        Ok (Some classes, args)
      else Ok (Some classes, args)
  end.

(** ** setup_environ, load_pickle and main *)

(** What the script asks of the machine it runs on. *)
Class Host (R : Type) : Type := {
  getcwd : string;
  listdir : string -> result (list string);
  cuda_is_available : bool;
  cuda_device_count : Z;
  pickle_load_labels : string -> result (list R) }.

(** [os.path.join(a, b)] on POSIX paths. *)
Definition path_join (a b : string) : string :=
  if String.prefix "/" b then b
  else if String.eqb a "" then b
  else if String.eqb (String.substring (String.length a - 1) 1 a) "/" then (a ++ b)%string
  else (a ++ "/" ++ b)%string.

(** [sorted(names)] on strings. *)
Definition str_le (a b : string) : Prop := String.leb a b = true.

#[global] Instance str_le_dec : RelDecision str_le.
Proof. intros a b. unfold str_le. apply _. Defined.

Definition sorted (names : list string) : list string := merge_sort str_le names.

(** [sep.join(parts)] *)
Fixpoint str_join (sep : string) (parts : list string) : string :=
  match parts with
  | [] => ""
  | [p] => p
  | p :: rest => (p ++ sep ++ str_join sep rest)%string
  end.

(** The attributes [setup_environ] adds to [args]; [output_dir] and
    [output_file] exist only when a conversation id was given. *)
Record environ : Type := Environ {
  device : string;
  pickle_name : string;
  input_dir : string;
  conversation_list : list string;
  gpus : Z;
  output_dir : option string;
  output_file : option string }.

(** [has_model] tells whether [select_tokenizer_and_model] set [args.model]. *)
Definition setup_environ `{Host R} (args : Args.t) (has_model : bool) : result environ :=
  let DATA_DIR := path_join getcwd "data" in
  let RESULTS_DIR := path_join getcwd "results" in
  let PKL_DIR := path_join (path_join RESULTS_DIR (Args.subject args)) "pickles" in
  let device := if cuda_is_available then "cuda:0" else "cpu" in
  let pickle_name := path_join PKL_DIR (Args.subject args ++ "_full_labels.pkl")%string in
  let input_dir := path_join DATA_DIR (Args.subject args) in
  names ← listdir input_dir;
  let conversation_list := sorted names in
  _ ← (if String.eqb (Args.subject args) "625"
       then assert (length conversation_list =? 54)
       else assert (length conversation_list =? 79));
  let gpus := cuda_device_count in
  _ ← (if (1 <? gpus)%Z && negb has_model then raise AttributeError else Ok tt);
  let stra := str_join "_" [Args.embedding_type args; "cnxt";
                            pretty (Args.context_length args)] in
  if (Args.conversation_id args =? 0)%Z then
    Ok (Environ device pickle_name input_dir conversation_list gpus None None)
  else
    let output_dir :=
      path_join (path_join (path_join RESULTS_DIR (Args.subject args)) "embeddings") stra in
    output_file_name ← Py.index conversation_list (Args.conversation_id args - 1)%Z;
    let output_file := path_join output_dir output_file_name in
    Ok (Environ device pickle_name input_dir conversation_list gpus
                (Some output_dir) (Some output_file)).

(** The labels of the pickle are a list of records.  [DataFrame.from_dict]
    of an empty list is a frame without columns, on which
    [df.conversation_id] raises AttributeError. *)
Definition load_pickle `{Host R} `{Labels R} (pickle_name : string) (args : Args.t)
  : result (list R) :=
  df ← pickle_load_labels pickle_name;
  if (Args.conversation_id args =? 0)%Z then Ok df
  else
    match df with
    | [] => raise AttributeError
    | _ => Ok (List.filter (fun r => (conversation_id r =? Args.conversation_id args)%Z) df)
    end.

(** The calls [main] makes, in the order it makes them.  The model is run
    only inside [generate_embeddings_with_context] and
    [generate_embeddings]. *)
Inductive call : Type :=
| CallSelectTokenizerAndModel
| CallSetupEnviron
| CallLoadPickle
| CallGenerateEmbeddingsWithContext
| CallGenerateEmbeddings
| CallGenWord2vecEmbeddings
| PrintTodo.

Definition runs_model (c : call) : bool :=
  match c with
  | CallGenerateEmbeddingsWithContext | CallGenerateEmbeddings => true
  | _ => false
  end.

(** A run: the calls made so far, and how the last one ended. *)
Definition run (A : Type) : Type := (list call * result A)%type.

#[global] Instance run_ret : MRet run := fun A a => ([], inr a).
#[global] Instance run_bind : MBind run := fun A B k m =>
  match m with
  | (calls, inl e) => (calls, inl e)
  | (calls, inr a) => let '(calls', r) := k a in (calls ++ calls', r)
  end.

Definition called {A} (c : call) (r : result A) : run A := ([c], r).

Definition main `{Tokenizer} `{LanguageModel} `{Glove} `{Labels R} `{!Host R}
    (args : Args.t) : run unit :=
  '(classes, args) ← called CallSelectTokenizerAndModel (select_tokenizer_and_model args);
  env ← called CallSetupEnviron (setup_environ args (bool_decide (is_Some classes)));
  utterance_df ← called CallLoadPickle (load_pickle (pickle_name env) args);
  if Args.history args then
    if String.eqb (Args.embedding_type args) "gpt2" then
      _ ← called CallGenerateEmbeddingsWithContext
            (generate_embeddings_with_context args (output_file env) utterance_df);
      mret tt
    else called PrintTodo (Ok tt)
  else if String.eqb (Args.embedding_type args) "glove50" then
    _ ← called CallGenWord2vecEmbeddings
          (gen_word2vec_embeddings (output_file env) utterance_df);
    mret tt
  else called CallGenerateEmbeddings (generate_embeddings args utterance_df).

(** ** save_pickle and get_token_indices *)

(** [s.endswith(suffix)]: some tail of [s] is [suffix]. *)
Fixpoint endswith (s suffix : string) : bool :=
  if String.eqb s suffix then true
  else match s with
       | EmptyString => false
       | String _ s' => endswith s' suffix
       end.

(** [save_pickle(item, file_name)], as far as the name goes: the name of the
    file the item is written to.  Creating the directory and writing the
    file are left out. *)
Definition save_pickle (file_name : string) : string :=
  let add_ext := if endswith file_name ".pkl" then "" else ".pkl" in
  (file_name ++ add_ext)%string.

Definition get_token_indices (args : Args.t) (num_tokens : Z) : result (Z * Z) :=
  if String.eqb (Args.embedding_type args) "gpt2" then Ok (0, num_tokens)%Z
  else if String.eqb (Args.embedding_type args) "bert" then Ok (1, num_tokens + 1)%Z
  else raise (Exception "wrong model").

(** ** parse_arguments *)

(** [parse_arguments()] on a command line without options: every argument
    at its default. *)
Definition parse_arguments_defaults : Args.t :=
  Args.Build "bert-large-uncased-whole-word-masking" "glove" 0 false false "625" false 0.

(** ** Notions the statements below are written in *)

(** Row [i] of what [gather_logits] collects over a conversation whose
    windows have length [L] is the model output at position
    [i `min` (L - 2)] of the window that starts at token
    [i - i `min` (L - 2)]: the position token [i] sits at. *)
Definition gathered {V} (out : list Z -> nat -> V) (L : nat) (toks : list Z) : list V :=
  map (fun i => out (take L (drop (i - i `min` (L - 2)) toks)) (i `min` (L - 2)))
      (seq 0 (length toks - 1)).

(** What the scorer makes of the gathered rows [scores] of a
    conversation, given the ground truth [truth] next to them. *)
Definition scored `{Tokenizer} `{LanguageModel} (scores : list Logit) (truth : list Z)
  : list (option string) * list (option Prob) * list (option Prob) :=
  (map (fun r => Some (convert_tokens_to_string
                         (convert_ids_to_tokens (snd (row_max (softmax r)))))) scores
     ++ [None],
   map (fun r => Some (fst (row_max (softmax r)))) scores ++ [None],
   map Some (zip_with prob_at (map softmax scores) truth) ++ [None]).

(** A token that [remove_punctuation] keeps. *)
Definition not_punctuation (tok : string) : bool :=
  negb (bool_decide (tok ∈ punctuation)).

(** The tokens of a word that stay in the table. *)
Definition kept_tokens `{Tokenizer} `{Labels R} (r : R) : list string :=
  List.filter not_punctuation (tokenize (word r)).

(** The tag [check_token_is_root] gives a token under "gpt2" or "bert". *)
Definition root_tag_of `{Tokenizer} `{Labels R} (args : Args.t) (r : R) (tok : string)
  : root_tag :=
  if String.eqb (Args.embedding_type args) "gpt2"
  then gpt2_token_is_root (String.eqb (word r) (str_strip (convert_tokens_to_string tok)))
  else bert_token_is_root (String.eqb (word r) tok).

(** The rows a word ends up with. *)
Definition rows_of_word `{Tokenizer} `{Glove} `{Labels R} (args : Args.t) (r : R)
  : list (token_row R) :=
  map (fun tok =>
         TokenRow r (glove50 !! word r) tok (convert_tokens_to_ids tok)
                  (root_tag_of args r tok))
      (kept_tokens r).

(** The number of conversations [setup_environ] insists on. *)
Definition expected_conversations (subject : string) : nat :=
  if String.eqb subject "625" then 54 else 79.

(** The token ids of one conversation of the token table, in table order. *)
Definition conversation_tokens `{Glove} `{Labels R} (df : list (token_row R)) (c : Z)
  : list Z :=
  map token_id (List.filter (fun r => (conversation_id (label r) =? c)%Z) df).

(** The four columns one conversation contributes under a context length
    [W >= 2]: the NaN row and the gathered hidden states, then the scored
    predictions. *)
Definition conversation_columns `{Tokenizer} `{LanguageModel} (W : nat) (toks : list Z)
  : list (embedding Emb) * list (option string) * list (option Prob) * list (option Prob) :=
  let L := W `min` length toks in
  let s := scored (gathered lm_logits L toks) (drop 1 toks) in
  (nan_row :: map hidden (gathered hidden_state L toks), s.1.1, s.1.2, s.2).

(** A column of the output table: what every conversation contributes to
    it, conversation after conversation in the order of first appearance;
    [f] picks the column. *)
Definition table_column `{Tokenizer} `{LanguageModel} `{Glove} `{Labels R} {Y}
    (W : nat) (df : list (token_row R))
    (f : list (embedding Emb) * list (option string) * list (option Prob)
         * list (option Prob) -> list Y)
  : list Y :=
  flat_map (fun c => f (conversation_columns W (conversation_tokens df c)))
           (unique (map (fun r => conversation_id (label r)) df)).

(** The directory the embeddings of a run go to. *)
Definition embeddings_dir `{Host R} (args : Args.t) : string :=
  path_join
    (path_join (path_join (path_join getcwd "results") (Args.subject args)) "embeddings")
    (str_join "_" [Args.embedding_type args; "cnxt"; pretty (Args.context_length args)]).

(** The pickle of labels a run reads. *)
Definition labels_pickle `{Host R} (args : Args.t) : string :=
  path_join
    (path_join (path_join (path_join getcwd "results") (Args.subject args)) "pickles")
    (Args.subject args ++ "_full_labels.pkl")%string.

(** ** Small instances to run the definitions on *)

Module Toy.

(** The id of a token: the code of its first character. *)
Definition first_code (tok : string) : Z :=
  match tok with
  | String c _ => Z.of_nat (Ascii.nat_of_ascii c)
  | EmptyString => 0
  end.

(** [str.strip()] on text that is ASCII: the white space is the characters
    9 to 13 and 28 to 32. *)
Definition is_space (c : Ascii.ascii) : bool :=
  let n := Ascii.nat_of_ascii c in
  ((9 <=? n) && (n <=? 13)) || ((28 <=? n) && (n <=? 32)).

Fixpoint lstrip (s : string) : string :=
  match s with
  | String c s' => if is_space c then lstrip s' else s
  | EmptyString => EmptyString
  end.

Fixpoint rstrip (s : string) : string :=
  match s with
  | String c s' =>
      match rstrip s' with
      | EmptyString => if is_space c then EmptyString else String c EmptyString
      | r => String c r
      end
  | EmptyString => EmptyString
  end.

Definition strip (s : string) : string := rstrip (lstrip s).

(** A tokenizer that keeps every word whole. *)
Definition whole_word : Tokenizer := {|
  tokenize s := [s];
  convert_tokens_to_ids := first_code;
  convert_ids_to_tokens id := pretty id;
  convert_tokens_to_string tok := tok;
  max_len_single_sentence := 1024;
  str_strip := strip |}.

(** A tokenizer that cuts every word into its characters. *)
Fixpoint characters (s : string) : list string :=
  match s with
  | EmptyString => []
  | String c s' => String c EmptyString :: characters s'
  end.

Definition by_character : Tokenizer := {|
  tokenize := characters;
  convert_tokens_to_ids := first_code;
  convert_ids_to_tokens id := pretty id;
  convert_tokens_to_string tok := tok;
  max_len_single_sentence := 1024;
  str_strip := strip |}.

(** A model whose output at a position is that window and position. *)
Definition echo : LanguageModel := {|
  Emb := list Z * nat;
  Logit := list Z * nat;
  ProbRow := list Z * nat;
  Prob := Z;
  hidden_state w p := (w, p);
  lm_logits w p := (w, p);
  softmax r := r;
  row_max r := (0%Z, Z.of_nat (snd r));
  prob_at r tok := tok |}.

Definition glove : Glove := {|
  Vec := Z;
  glove50 := {[ "the" := 1%Z ]} |}.

Definition labels : Labels (string * Z) := {|
  word := fst;
  conversation_id := snd |}.

(** A machine whose data directories hold [n] conversations each. *)
Definition host (n : nat) : Host (string * Z) := {|
  getcwd := "/home/user";
  listdir dir := Ok (replicate n "conversation");
  cuda_is_available := false;
  cuda_device_count := 0;
  pickle_load_labels file := Ok [("the", 1%Z); ("cat", 1%Z)] |}.

Definition args (embedding_type subject : string) (context_length : Z) (history : bool)
  : Args.t :=
  Args.Build "bert-large-uncased-whole-word-masking" embedding_type context_length
             false false subject history 1.

End Toy.

(** * Properties *)

(** ** The error monad *)

Lemma bind_Ok {A B} (a : A) (k : A -> result B) : (Ok a ≫= k) = k a.
Proof. reflexivity. Qed.

Lemma bind_raise {A B} (e : exn) (k : A -> result B) : (raise e ≫= k) = raise e.
Proof. reflexivity. Qed.

Lemma mapE_Ok {A B} (f : A -> result B) (g : A -> B) (l : list A) :
  Forall (fun a => f a = Ok (g a)) l -> mapE f l = Ok (map g l).
Proof.
  induction 1 as [|a l Ha _ IH]; simpl; [done|].
  by rewrite Ha, IH.
Qed.

(** ** window *)

Section window_facts.
Context {A : Type}.
Implicit Types (s w it : list A) (W k : nat).

(** One turn of the loop turns the window starting at [k] into the one
    starting at [S k]. *)
Lemma window_slide s W k elem it :
  1 ≤ W -> drop (k + W) s = elem :: it ->
  Py.tail_slice (take W (drop k s)) ++ [elem] = take W (drop (S k) s).
Proof.
  intros HW Hd. unfold Py.tail_slice.
  assert (Helem : s !! (k + W) = Some elem).
  { rewrite <- (Nat.add_0_r (k + W)), <- lookup_drop, Hd. done. }
  destruct W as [|W']; [lia|].
  assert (Hk : is_Some (s !! k)).
  { apply lookup_lt_is_Some. apply lookup_lt_Some in Helem. lia. }
  destruct Hk as [x Hx].
  rewrite (drop_S s x k Hx). simpl. rewrite drop_0.
  symmetry. apply take_S_r.
  rewrite lookup_drop. rewrite <- Helem. f_equal. lia.
Qed.

Lemma window_loop_windows s W k it :
  1 ≤ W -> drop (k + W) s = it ->
  window_loop (take W (drop k s)) it
  = map (fun j => take W (drop j s)) (seq (S k) (length it)).
Proof.
  intros HW. revert k. induction it as [|elem it IH]; intros k Hd; [done|].
  cbn [window_loop length seq map].
  rewrite (window_slide s W k elem it HW Hd).
  f_equal. apply IH.
  replace (S k + W) with (S (k + W)) by lia.
  assert (Helem : s !! (k + W) = Some elem).
  { rewrite <- (Nat.add_0_r (k + W)), <- lookup_drop, Hd. done. }
  rewrite (drop_S s elem (k + W) Helem) in Hd. congruence.
Qed.

(** A stop between 0 and [sys.maxsize] is accepted. *)
Lemma islice_accepts (n : Z) :
  (0 <= n <= sys_maxsize)%Z -> ((n <? 0) || (sys_maxsize <? n))%Z = false.
Proof.
  intros Hn. apply orb_false_iff. split; apply Z.ltb_ge; lia.
Qed.

(** [sys.maxsize] is above the small context lengths. *)
Lemma small_below_maxsize (n : Z) : (n <= 2)%Z -> (n <= sys_maxsize)%Z.
Proof. intros Hn. transitivity 2%Z; [done|]. by vm_compute. Qed.

(** With at least [W >= 1] elements: the windows start at 0, 1, ...,
    [length s - W]. *)
Lemma window_full s W :
  1 ≤ W -> (Z.of_nat W <= sys_maxsize)%Z -> W ≤ length s ->
  window s (Z.of_nat W)
  = Ok (map (fun j => take W (drop j s)) (seq 0 (length s - W + 1))).
Proof.
  intros HW Hmax HN. unfold window.
  rewrite islice_accepts by lia.
  rewrite Nat2Z.id.
  assert (Hlen : (length (take W s) <=? W) = true).
  { apply Nat.leb_le. rewrite length_take. lia. }
  rewrite Hlen. f_equal.
  replace (length s - W + 1) with (S (length s - W)) by lia.
  cbn [seq map app]. rewrite drop_0. f_equal.
  rewrite <- (drop_0 s) at 1.
  rewrite (window_loop_windows s W 0 (drop W s) HW eq_refl).
  by rewrite length_drop.
Qed.

(** With fewer than [n] elements: the whole sequence, once. *)
Lemma window_whole s (n : Z) :
  (Z.of_nat (length s) < n)%Z -> (n <= sys_maxsize)%Z -> window s n = Ok [s].
Proof.
  intros Hn Hmax. unfold window.
  rewrite islice_accepts by lia.
  assert (Hk : length s ≤ Z.to_nat n) by lia.
  rewrite (take_ge s _ Hk), (drop_ge s _ Hk).
  assert (Hlen : (length s <=? Z.to_nat n) = true) by (apply Nat.leb_le; lia).
  by rewrite Hlen.
Qed.

(** A stop above [sys.maxsize] is refused, whatever the sequence. *)
Lemma window_above_maxsize s (n : Z) :
  (sys_maxsize < n)%Z -> window s n = raise ValueError.
Proof.
  intros Hn. unfold window.
  destruct (Z.ltb_spec sys_maxsize n) as [_|?]; [|lia].
  by rewrite orb_true_r.
Qed.

End window_facts.

(** C1, as amended.  For a sequence of length N and a window size W with
    1 <= W <= N, [window] yields N - W + 1 windows; the i-th is the W
    consecutive elements from index i on (a forward step of 1), every window
    has length exactly W, there is no shorter last window, and every element
    of the sequence lies in at least one window.  The sequence is a Python
    sequence: it has at most [sys.maxsize] elements. *)
Theorem window_emits_full_windows {A} (s : list A) (W : nat) :
  (Z.of_nat (length s) <= sys_maxsize)%Z ->
  1 ≤ W -> W ≤ length s ->
  exists ws,
    window s (Z.of_nat W) = Ok ws
    /\ length ws = length s - W + 1
    /\ (forall i, i ≤ length s - W -> ws !! i = Some (take W (drop i s)))
    /\ (forall w, w ∈ ws -> length w = W)
    /\ (forall j x, s !! j = Some x ->
          exists i w, ws !! i = Some w /\ i ≤ j /\ w !! (j - i) = Some x).
Proof.
  intros Hmax HW HN. eexists. split; [apply window_full; lia|].
  assert (Hlookup : forall i, i ≤ length s - W ->
            map (fun j => take W (drop j s)) (seq 0 (length s - W + 1)) !! i
            = Some (take W (drop i s))).
  { intros i Hi. rewrite list_lookup_fmap, lookup_seq_lt by lia. done. }
  split; [by rewrite length_map, length_seq|].
  split; [exact Hlookup|]. split.
  - intros w Hw. apply list_elem_of_fmap in Hw as (j & -> & Hj).
    apply elem_of_seq in Hj. rewrite length_take, length_drop. lia.
  - intros j x Hj. pose proof (lookup_lt_Some _ _ _ Hj) as Hlt.
    exists (j `min` (length s - W)), (take W (drop (j `min` (length s - W)) s)).
    split; [apply Hlookup; lia|]. split; [lia|].
    rewrite lookup_take_lt by lia. rewrite lookup_drop. rewrite <- Hj. f_equal. lia.
Qed.

(** C1, as stated, fails: three tokens and a window of two give two windows
    of two tokens each, and the last window is not a shorter one. *)
Lemma window_no_shorter_final_window :
  2 ≤ length [10; 20; 30]%Z
  /\ window [10; 20; 30]%Z 2 = Ok [[10; 20]; [20; 30]]%Z
  /\ ~ (exists ws w, window [10; 20; 30]%Z 2 = Ok ws /\ last ws = Some w /\ length w < 2).
Proof.
  split; [simpl; lia|]. split; [reflexivity|].
  intros (ws & w & Hws & Hlast & Hlen).
  cbv in Hws. injection Hws as <-. cbn in Hlast. injection Hlast as <-.
  simpl in Hlen. lia.
Qed.

Lemma window_emits_full_windows_witness :
  (Z.of_nat (length [10; 20; 30]%Z) <= sys_maxsize)%Z
  /\ 1 ≤ 2 /\ 2 ≤ length [10; 20; 30]%Z
  /\ exists ws,
       window [10; 20; 30]%Z (Z.of_nat 2) = Ok ws
       /\ length ws = length [10; 20; 30]%Z - 2 + 1
       /\ (forall i, i ≤ length [10; 20; 30]%Z - 2 ->
             ws !! i = Some (take 2 (drop i [10; 20; 30]%Z)))
       /\ (forall w, w ∈ ws -> length w = 2)
       /\ (forall j x, [10; 20; 30]%Z !! j = Some x ->
             exists i w, ws !! i = Some w /\ i ≤ j /\ w !! (j - i) = Some x).
Proof.
  split; [by vm_compute|]. split; [lia|]. split; [simpl; lia|].
  apply (window_emits_full_windows [10; 20; 30]%Z 2); [by vm_compute|lia|simpl; lia].
Defined.

(** C10, as amended.  A sequence shorter than the window size W, with W
    at most [sys.maxsize], gives exactly one window, the whole sequence in
    order, and no exception; for the empty sequence that one window is the
    empty one.  A window size above [sys.maxsize] raises ValueError,
    whatever the sequence. *)
Theorem window_short_sequence {A} (s : list A) (n : Z) :
  ((Z.of_nat (length s) < n)%Z -> (n <= sys_maxsize)%Z -> window s n = Ok [s])
  /\ ((sys_maxsize < n)%Z -> window s n = raise ValueError).
Proof. split; [apply window_whole|apply window_above_maxsize]. Qed.

Lemma window_short_sequence_witness :
  (Z.of_nat (length [10; 20]%Z) < 5)%Z /\ (5 <= sys_maxsize)%Z
  /\ window [10; 20]%Z 5 = Ok [[10; 20]%Z].
Proof.
  split; [simpl; lia|]. split; [by vm_compute|].
  apply (window_short_sequence [10; 20]%Z 5); [simpl; lia|by vm_compute].
Defined.

(** C10, as stated, fails: two tokens and a window size of 2^63, which is
    above [sys.maxsize], give no window but ValueError. *)
Lemma window_size_above_maxsize :
  (Z.of_nat (length [10; 20]%Z) < 2 ^ 63)%Z
  /\ window [10; 20]%Z (2 ^ 63) = raise ValueError
  /\ window [10; 20]%Z (2 ^ 63) <> Ok [[10; 20]%Z].
Proof. split; [by vm_compute|]. split; [reflexivity|discriminate]. Qed.

(** ** gather_logits *)

Section gather_facts.
Context {V : Type}.
Implicit Types (w : list V) (rows ws : list (list V)) (L : nat).

Lemma from_end_lookup k w x :
  k ≤ length w -> w !! (length w - k) = Some x -> Py.from_end k w = Ok x.
Proof.
  intros Hk Hx. unfold Py.from_end.
  destruct (Nat.ltb_spec (length w) k) as [?|_]; [lia|].
  by rewrite Hx.
Qed.

(** Column [-k] of rows of length [L >= k]: position [L - k] of each. *)
Lemma column_from_end_picks from k rows L :
  1 ≤ k -> k ≤ L -> Forall (fun r => length r = L) rows ->
  exists picks,
    column_from_end from k (Tensor rows L) = Ok picks
    /\ Forall2 (fun r x => r !! (L - k) = Some x) (drop from rows) picks.
Proof.
  intros Hk HL Hrows. unfold column_from_end. cbn [t_width t_rows].
  destruct (Nat.ltb_spec L k) as [?|_]; [lia|].
  apply (Forall_drop _ from) in Hrows.
  induction Hrows as [|r rs Hr _ (picks & Hpicks & Hall)].
  - exists []. split; [done|constructor].
  - destruct (lookup_lt_is_Some_2 r (L - k)) as [x Hx]; [lia|].
    exists (x :: picks). split; [|by constructor].
    cbn [mapE]. rewrite (from_end_lookup k r x), Hpicks; [done|lia|].
    by rewrite Hr.
Qed.

End gather_facts.

(** C3.  The positions [gather_logits] keeps, for a batch of windows of
    length L.  First batch, one window: positions 0 to L-2 of it.  First
    batch, more than one window (L >= 2): positions 0 to L-2 of the first
    window, then position L-2 of each remaining window.  Later batch
    (L >= 2): position L-2 of each window. *)
Theorem gather_logits_positions {V} (batch_num : nat) (w : list V) (ws : list (list V))
    (L : nat) :
  Forall (fun r => length r = L) (w :: ws) ->
  (batch_num = 0 -> ws = [] ->
     gather_logits batch_num (Tensor (w :: ws) L) = Ok (take (L - 1) w))
  /\ (batch_num = 0 -> ws <> [] -> 2 ≤ L ->
       exists picks,
         gather_logits batch_num (Tensor (w :: ws) L) = Ok (take (L - 1) w ++ picks)
         /\ Forall2 (fun r x => r !! (L - 2) = Some x) ws picks)
  /\ (batch_num <> 0 -> 2 ≤ L ->
       exists picks,
         gather_logits batch_num (Tensor (w :: ws) L) = Ok picks
         /\ Forall2 (fun r x => r !! (L - 2) = Some x) (w :: ws) picks).
Proof.
  intros Hrows. pose proof (Forall_inv Hrows) as Hw. cbn beta in Hw.
  split; [|split].
  - intros -> ->. cbn. unfold Py.init_slice. by rewrite Hw.
  - intros -> Hws HL.
    destruct (column_from_end_picks 1 2 (w :: ws) L) as (picks & Hpicks & Hall);
      [lia|lia|done|].
    exists picks. split; [|exact Hall].
    unfold gather_logits. cbn [Nat.eqb t_rows length].
    destruct ws as [|w' ws']; [done|]. cbn [length Nat.eqb].
    unfold first_row_init. cbn [t_rows Py.first]. rewrite bind_Ok.
    unfold Py.init_slice. rewrite Hw. rewrite bind_Ok. by rewrite Hpicks.
  - intros Hn HL.
    destruct (column_from_end_picks 0 2 (w :: ws) L) as (picks & Hpicks & Hall);
      [lia|lia|done|].
    exists picks. split; [|exact Hall].
    unfold gather_logits. destruct batch_num; [done|]. exact Hpicks.
Qed.

Lemma gather_logits_positions_witness :
  Forall (fun r => length r = 3) ([1; 2; 3] :: [[4; 5; 6]])%Z
  /\ gather_logits 0 (Tensor ([1; 2; 3] :: [[4; 5; 6]])%Z 3) = Ok [1; 2; 5]%Z
  /\ exists picks,
       gather_logits 0 (Tensor ([1; 2; 3] :: [[4; 5; 6]])%Z 3)
       = Ok (take (3 - 1) [1; 2; 3]%Z ++ picks)
       /\ Forall2 (fun r x => r !! (3 - 2) = Some x) [[4; 5; 6]%Z] picks.
Proof.
  assert (H : Forall (fun r => length r = 3) ([1; 2; 3] :: [[4; 5; 6]])%Z)
    by (repeat constructor).
  split; [exact H|]. split; [reflexivity|].
  apply (gather_logits_positions 0 [1; 2; 3]%Z [[4; 5; 6]%Z] 3 H); [reflexivity|discriminate|lia].
Defined.

(** ** The model outputs and the batch loop *)

Section batch_facts.
Context `{LanguageModel} {V : Type} (out : list Z -> nat -> V).
Implicit Types (w : list Z) (ws : list (list Z)) (L : nat).

Lemma forward_first_row_init w ws L :
  first_row_init (forward out (Tensor (w :: ws) L))
  = Ok (map (out w) (seq 0 (length w - 1))).
Proof.
  unfold first_row_init, forward. cbn [t_rows map Py.first]. rewrite bind_Ok.
  unfold Py.init_slice. rewrite length_map, length_seq.
  f_equal. rewrite <- (fmap_take (out w)). rewrite take_seq.
  f_equal. f_equal. lia.
Qed.

Lemma forward_column from k ws L :
  1 ≤ k -> k ≤ L -> Forall (fun w => length w = L) ws ->
  column_from_end from k (forward out (Tensor ws L))
  = Ok (map (fun w => out w (L - k)) (drop from ws)).
Proof.
  intros Hk HL Hws. unfold column_from_end, forward. cbn [t_width t_rows].
  destruct (Nat.ltb_spec L k) as [?|_]; [lia|].
  rewrite <- (fmap_drop _ from ws).
  apply (Forall_drop _ from) in Hws.
  induction Hws as [|w ws' Hw _ IH]; [done|].
  cbn [map mapE fmap list_fmap]. cbn [map fmap list_fmap] in IH. rewrite IH.
  rewrite (from_end_lookup k _ (out w (L - k))); [done| |].
  - rewrite length_map, length_seq. lia.
  - rewrite length_map, length_seq, Hw.
    change (map (out w) (seq 0 L)) with (out w <$> seq 0 L).
    rewrite list_lookup_fmap, lookup_seq_lt by lia. done.
Qed.

Lemma gather_first_single w L :
  length w = L ->
  gather_logits 0 (forward out (Tensor [w] L)) = Ok (map (out w) (seq 0 (L - 1))).
Proof. intros <-. unfold gather_logits. cbn [Nat.eqb]. apply forward_first_row_init. Qed.

Lemma gather_first_pair w1 w2 L :
  2 ≤ L -> length w1 = L -> length w2 = L ->
  gather_logits 0 (forward out (Tensor [w1; w2] L))
  = Ok (map (out w1) (seq 0 (L - 1)) ++ [out w2 (L - 2)]).
Proof.
  intros HL H1 H2. unfold gather_logits. cbn [Nat.eqb].
  change (length (t_rows (forward out (Tensor [w1; w2] L))) =? 1) with false.
  cbv iota. rewrite forward_first_row_init, bind_Ok, H1.
  rewrite (forward_column 1 2 [w1; w2] L); [done|lia|lia|by repeat constructor].
Qed.

Lemma gather_later n ws L :
  2 ≤ L -> Forall (fun w => length w = L) ws ->
  gather_logits (S n) (forward out (Tensor ws L)) = Ok (map (fun w => out w (L - 2)) ws).
Proof.
  intros HL Hws. unfold gather_logits. cbn [Nat.eqb].
  rewrite (forward_column 0 2 ws L); [done|lia|lia|done].
Qed.

End batch_facts.

(** Lists are cut into batches two elements at a time. *)
Lemma pairs_ind {A} (P : list A -> Prop) :
  P [] -> (forall a, P [a]) -> (forall a b l, P l -> P (a :: b :: l)) ->
  forall l, P l.
Proof.
  intros H0 H1 H2.
  assert (Hboth : forall l, P l /\ forall a, P (a :: l)).
  { induction l as [|b l [IH1 IH2]]; [by split|]. split; [apply IH2|]. intros a. by apply H2. }
  intros l. apply Hboth.
Qed.

Section loop_facts.
Context `{LanguageModel}.
Implicit Types (w : list Z) (ws : list (list Z)) (L : nat).

(** From the second batch on, every window contributes its position L-2. *)
Lemma run_batches_later ws L :
  2 ≤ L -> Forall (fun w => length w = L) ws ->
  forall n, exists concat_output concat_logits,
    run_batches (S n) (DataLoader L ws) = Ok (concat_output, concat_logits)
    /\ concat concat_output = map (fun w => hidden_state w (L - 2)) ws
    /\ concat concat_logits = map (fun w => lm_logits w (L - 2)) ws.
Proof.
  intros HL. induction ws as [|a|a b ws IH] using pairs_ind; intros Hws n.
  - exists [], []. done.
  - exists [[hidden_state a (L - 2)]], [[lm_logits a (L - 2)]].
    cbn [DataLoader run_batches]. rewrite !gather_later by done. done.
  - apply Forall_cons in Hws as [Ha Hws]. apply Forall_cons in Hws as [Hb Hws].
    destruct (IH Hws (S n)) as (co & cl & Hrun & Hco & Hcl).
    exists ([hidden_state a (L - 2); hidden_state b (L - 2)] :: co),
           ([lm_logits a (L - 2); lm_logits b (L - 2)] :: cl).
    cbn [DataLoader run_batches]. rewrite !gather_later by (by repeat constructor).
    rewrite !bind_Ok, Hrun. cbn [concat map app]. by rewrite Hco, Hcl.
Qed.

(** The whole loop: positions 0 to L-2 of the first window, then position
    L-2 of every other window. *)
Lemma run_batches_first w ws L :
  Forall (fun w => length w = L) (w :: ws) -> (ws <> [] -> 2 ≤ L) ->
  exists concat_output concat_logits,
    run_batches 0 (DataLoader L (w :: ws)) = Ok (concat_output, concat_logits)
    /\ concat_output <> [] /\ concat_logits <> []
    /\ concat concat_output
       = map (hidden_state w) (seq 0 (L - 1)) ++ map (fun w => hidden_state w (L - 2)) ws
    /\ concat concat_logits
       = map (lm_logits w) (seq 0 (L - 1)) ++ map (fun w => lm_logits w (L - 2)) ws.
Proof.
  intros Hws HL. apply Forall_cons in Hws as [Hw Hws].
  destruct ws as [|w2 ws].
  - exists [map (hidden_state w) (seq 0 (L - 1))], [map (lm_logits w) (seq 0 (L - 1))].
    cbn [DataLoader run_batches]. rewrite !gather_first_single by done.
    cbn [concat map]. by rewrite !app_nil_r.
  - specialize (HL ltac:(done)). apply Forall_cons in Hws as [Hw2 Hws].
    destruct (run_batches_later ws L HL Hws 0) as (co & cl & Hrun & Hco & Hcl).
    exists ((map (hidden_state w) (seq 0 (L - 1)) ++ [hidden_state w2 (L - 2)]) :: co),
           ((map (lm_logits w) (seq 0 (L - 1)) ++ [lm_logits w2 (L - 2)]) :: cl).
    cbn [DataLoader run_batches]. rewrite !gather_first_pair by done.
    rewrite !bind_Ok, Hrun. cbn [concat map]. rewrite Hco, Hcl.
    rewrite <- !app_assoc. done.
Qed.

End loop_facts.

(** ** One conversation *)


Lemma length_gathered {V} (out : list Z -> nat -> V) L toks :
  length (gathered out L toks) = length toks - 1.
Proof. unfold gathered. by rewrite length_map, length_seq. Qed.

(** The position a gathered row is taken from holds the token of that row. *)
Lemma gathered_position (toks : list Z) (L i : nat) :
  2 ≤ L -> take L (drop (i - i `min` (L - 2)) toks) !! (i `min` (L - 2)) = toks !! i.
Proof.
  intros HL. rewrite lookup_take_lt by lia. rewrite lookup_drop. f_equal. lia.
Qed.

Section conversation_facts.
Implicit Types (toks : list Z) (W L : nat).

(** All windows of a conversation, whatever its length. *)
Lemma window_all toks W :
  1 ≤ W -> (Z.of_nat W <= sys_maxsize)%Z ->
  window toks (Z.of_nat W)
  = Ok (map (fun j => take (W `min` length toks) (drop j toks))
            (seq 0 (length toks - W `min` length toks + 1))).
Proof.
  intros HW Hmax. destruct (decide (W ≤ length toks)) as [Hle|Hgt].
  - rewrite window_full by done. by rewrite Nat.min_l.
  - rewrite window_whole by lia. rewrite Nat.min_r by lia.
    rewrite Nat.sub_diag. cbn [Nat.add seq map]. by rewrite drop_0, firstn_all.
Qed.

Lemma windows_uniform toks L n :
  L + n ≤ length toks + 1 -> 1 ≤ n -> L ≤ length toks ->
  Forall (fun w => length w = L) (map (fun j => take L (drop j toks)) (seq 0 n)).
Proof.
  intros Hn _ HL. apply Forall_forall. intros w Hw.
  apply list_elem_of_fmap in Hw as (j & -> & Hj). apply elem_of_seq in Hj.
  rewrite length_take, length_drop. lia.
Qed.

(** Rows that are all empty are the rows of the tensor of width 0. *)
Lemma empty_rows {A} (rows : list (list A)) :
  Forall (fun r => length r = 0) rows -> map (fun _ => []) rows = rows.
Proof.
  induction 1 as [|r rows Hr _ IH]; [done|].
  cbn [map]. rewrite IH. f_equal. symmetry. by apply nil_length_inv.
Qed.

Lemma torch_tensor_uniform {A} (r : list A) (rs : list (list A)) L :
  Forall (fun r => length r = L) (r :: rs) ->
  torch_tensor (r :: rs) = Ok (Tensor (r :: rs) L).
Proof.
  intros Hall. pose proof Hall as Hrows.
  apply Forall_cons in Hall as [Hr Hrs]. unfold torch_tensor.
  destruct (Nat.eqb_spec (length r) 0) as [H0|_].
  - rewrite <- Hr, H0. rewrite empty_rows; [done|].
    eapply Forall_impl; [exact Hrows|]. cbn beta. intros r' Hr'. lia.
  - assert (Hb : forallb (fun r' => length r' =? length r) rs = true).
    { apply forallb_forall. intros r' Hin. apply Nat.eqb_eq.
      rewrite Forall_forall in Hrs. rewrite Hr. apply Hrs. by apply list_elem_of_In. }
    by rewrite Hb, Hr.
Qed.

(** The first window gives rows 0 to L-2, window j >= 1 gives row
    j + L - 2. *)
Lemma gathered_split {V} (out : list Z -> nat -> V) toks L :
  1 ≤ L -> L ≤ length toks -> (L < length toks -> 2 ≤ L) ->
  map (out (take L toks)) (seq 0 (L - 1))
  ++ map (fun w => out w (L - 2))
         (map (fun j => take L (drop j toks)) (seq 1 (length toks - L)))
  = gathered out L toks.
Proof.
  intros HL HN H2. unfold gathered.
  replace (length toks - 1) with ((L - 1) + (length toks - L)) by lia.
  rewrite seq_app, map_app. f_equal.
  - apply map_ext_in. intros i Hi. apply in_seq in Hi.
    replace (i `min` (L - 2)) with i by lia.
    by rewrite Nat.sub_diag, drop_0.
  - rewrite map_map. cbn [Nat.add].
    destruct (decide (length toks - L = 0)) as [->|Hne]; [done|].
    specialize (H2 ltac:(lia)).
    replace (L - 1) with ((L - 2) + 1) by lia.
    rewrite <- fmap_add_seq. change (Nat.add (L - 2) <$> seq 1 (length toks - L))
      with (map (Nat.add (L - 2)) (seq 1 (length toks - L))).
    rewrite map_map. apply map_ext_in. intros j Hj. apply in_seq in Hj.
    replace ((L - 2 + j) `min` (L - 2)) with (L - 2) by lia.
    f_equal. f_equal. f_equal. lia.
Qed.

(** The last elements of the windows from [k] on. *)
Lemma window_lasts toks L m : forall k,
  1 ≤ L -> k + L + m ≤ length toks + 1 ->
  mapE (Py.from_end 1) (map (fun j => take L (drop j toks)) (seq k m))
  = Ok (take m (drop (k + L - 1) toks)).
Proof.
  induction m as [|m IH]; intros k HL Hk; [done|].
  cbn [seq map mapE].
  destruct (lookup_lt_is_Some_2 toks (k + L - 1)) as [x Hx]; [lia|].
  rewrite (from_end_lookup 1 _ x).
  - rewrite bind_Ok, IH by lia. rewrite bind_Ok.
    rewrite (drop_S toks x (k + L - 1) Hx). cbn [take].
    do 4 f_equal. lia.
  - rewrite length_take, length_drop. lia.
  - rewrite length_take, length_drop.
    rewrite lookup_take_lt by lia. rewrite lookup_drop. rewrite <- Hx. f_equal. lia.
Qed.

End conversation_facts.

Section scorer_facts.
Context `{Tokenizer} `{LanguageModel}.
Implicit Types (toks : list Z) (W L : nat).

(** The ground truth rebuilt from several windows: every token but the
    first. *)
Lemma true_y_windows toks L :
  1 ≤ L -> L ≤ length toks ->
  (sti ← torch_tensor (take L toks
                       :: map (fun j => take L (drop j toks)) (seq 1 (length toks - L)));
   head ← first_row_tail sti;
   lasts ← column_from_end 1 1 sti;
   Ok (head ++ lasts))
  = Ok (drop 1 toks).
Proof.
  intros HL HN.
  rewrite (torch_tensor_uniform _ _ L).
  2:{ rewrite <- (drop_0 toks) at 1.
      apply (windows_uniform toks L (S (length toks - L))); lia. }
  rewrite bind_Ok. unfold first_row_tail. cbn [t_rows Py.first]. rewrite !bind_Ok.
  unfold column_from_end. cbn [t_width t_rows skipn].
  destruct (Nat.ltb_spec L 1) as [?|_]; [lia|].
  rewrite drop_0, window_lasts by lia. rewrite bind_Ok.
  unfold Py.tail_slice. f_equal.
  replace (1 + L - 1) with L by lia.
  rewrite (take_ge (drop L toks)) by (rewrite length_drop; lia).
  apply drop_take_drop. lia.
Qed.


Lemma scorer_windows toks W concat_logits :
  2 ≤ W -> 2 ≤ length toks -> concat_logits <> [] ->
  let L := W `min` length toks in
  concat concat_logits = gathered lm_logits L toks ->
  get_correct_prediction_probability concat_logits
    (map (fun j => take L (drop j toks)) (seq 0 (length toks - L + 1)))
  = Ok (scored (gathered lm_logits L toks) (drop 1 toks)).
Proof.
  intros HW HN Hne L HG. unfold get_correct_prediction_probability.
  assert (Hcat : torch_cat concat_logits = Ok (gathered lm_logits L toks)).
  { destruct concat_logits; [done|]. unfold torch_cat. by rewrite HG. }
  rewrite Hcat, bind_Ok.
  pose proof (length_gathered lm_logits L toks) as Hlen.
  destruct (Nat.eqb_spec (length (gathered lm_logits L toks)) 0) as [?|_]; [lia|].
  replace (length toks - L + 1) with (S (length toks - L)) by lia.
  cbn [seq map]. rewrite drop_0.
  assert (Htruth :
    (if length (gathered lm_logits L toks) =? 1
     then s0 ← Py.first (take L toks
                         :: map (fun j => take L (drop j toks)) (seq 1 (length toks - L)));
          Ok (Py.tail_slice s0)
     else sti ← torch_tensor (take L toks
                              :: map (fun j => take L (drop j toks))
                                     (seq 1 (length toks - L)));
          head ← first_row_tail sti;
          lasts ← column_from_end 1 1 sti;
          Ok (head ++ lasts))
    = Ok (drop 1 toks)).
  { destruct (Nat.eqb_spec (length (gathered lm_logits L toks)) 1) as [H1|_].
    - cbn [Py.first]. rewrite bind_Ok. unfold Py.tail_slice.
      by rewrite take_ge by lia.
    - apply true_y_windows; lia. }
  rewrite Htruth, bind_Ok.
  unfold torch_gather. rewrite length_map, Hlen, length_drop.
  destruct (Nat.ltb_spec (length toks - 1) (length toks - 1)) as [?|_]; [lia|].
  rewrite bind_Ok. unfold scored. rewrite !map_map. done.
Qed.

End scorer_facts.

Section conversation_step_facts.
Context `{Tokenizer} `{LanguageModel}.
Implicit Types (toks : list Z) (W : nat).

(** A conversation of at least two tokens under a context length of at
    least two: the NaN row and one hidden state per token but the last;
    one prediction per token but the last, and a closing [None]. *)
Lemma conversation_step_spec toks W :
  2 ≤ W -> (Z.of_nat W <= sys_maxsize)%Z -> 2 ≤ length toks ->
  let L := W `min` length toks in
  let s := scored (gathered lm_logits L toks) (drop 1 toks) in
  conversation_step (Z.of_nat W) toks
  = Ok (nan_row :: map hidden (gathered hidden_state L toks), s.1.1, s.1.2, s.2).
Proof.
  intros HW Hmax HN L s. unfold conversation_step.
  rewrite window_all by lia. fold L. rewrite bind_Ok.
  assert (HL : 2 ≤ L ∧ L ≤ length toks) by (unfold L; lia).
  assert (Hwins : map (fun j => take L (drop j toks)) (seq 0 (length toks - L + 1))
                  = take L toks
                    :: map (fun j => take L (drop j toks)) (seq 1 (length toks - L))).
  { replace (length toks - L + 1) with (S (length toks - L)) by lia.
    cbn [seq map]. by rewrite drop_0. }
  assert (Hall : Forall (fun w => length w = L)
                   (map (fun j => take L (drop j toks)) (seq 0 (length toks - L + 1))))
    by (apply windows_uniform; lia).
  rewrite Hwins in Hall |- * at 1.
  rewrite (torch_tensor_uniform _ _ L Hall), bind_Ok. cbn [t_width t_rows].
  destruct (run_batches_first _ _ L Hall ltac:(lia))
    as (co & cl & Hrun & Hco_ne & Hcl_ne & Hco & Hcl).
  rewrite Hrun, bind_Ok.
  rewrite gathered_split in Hco by lia. rewrite gathered_split in Hcl by lia.
  unfold extract_token_embeddings_new.
  assert (Hcat : torch_cat co = Ok (gathered hidden_state L toks)).
  { destruct co; [done|]. unfold torch_cat. by rewrite Hco. }
  rewrite Hcat, !bind_Ok. cbn [app length].
  rewrite length_map, length_gathered.
  replace (S (length toks - 1)) with (length toks) by lia.
  rewrite Nat.eqb_refl. cbn [assert]. rewrite bind_Ok.
  rewrite (scorer_windows toks W cl HW HN Hcl_ne Hcl). fold L.
  rewrite bind_Ok. done.
Qed.

End conversation_step_facts.

(** ** Embeddings of a conversation *)

(** Under a context length of 1 no conversation of two tokens or more gets
    through the first batch. *)
Lemma conversation_step_context_length_one `{Tokenizer} `{LanguageModel} (toks : list Z) :
  2 ≤ length toks -> conversation_step 1 toks = raise IndexError.
Proof.
  intros HN. unfold conversation_step.
  change (window toks 1) with (window toks (Z.of_nat 1)).
  rewrite (window_full toks 1) by (try apply small_below_maxsize; lia). rewrite bind_Ok.
  destruct toks as [|t1 [|t2 toks]]; cbn [length] in HN; [lia|lia|].
  replace (length (t1 :: t2 :: toks) - 1 + 1) with (S (S (length toks)))
    by (cbn [length]; lia).
  cbn [seq map]. rewrite !drop_0. cbn [take skipn].
  rewrite (torch_tensor_uniform _ _ 1).
  - reflexivity.
  - repeat constructor. apply Forall_forall. intros w Hw.
    apply list_elem_of_fmap in Hw as (j & -> & Hj). apply elem_of_seq in Hj.
    rewrite length_take, length_drop. cbn [length]. lia.
Qed.

(** C4, as stated, fails: two tokens under a context length of 1 give two
    windows of one token; the first batch holds both, and the second window
    has no second-to-last position. *)
Lemma embeddings_context_length_one :
  2 ≤ length [5; 7]%Z
  /\ window [5; 7]%Z 1 = Ok [[5]; [7]]%Z
  /\ @conversation_step Toy.whole_word Toy.echo 1 [5; 7]%Z = raise IndexError.
Proof. split; [simpl; lia|]. split; reflexivity. Qed.

(** C4, as amended.  For a conversation of at least two tokens and a context
    length of at least two and at most [sys.maxsize], the conversation step
    returns, and its embedding array has exactly one row per token, in the
    order of the tokens: row 0 is the NaN row, and row i + 1 is the hidden
    state the model gives at the position of token i in one of the windows:
    position [pos] of the window that starts at token [j], with
    [j + pos = i]. *)
Theorem embeddings_one_row_per_token `{Tokenizer} `{LanguageModel}
    (toks : list Z) (W : nat) :
  2 ≤ W -> (Z.of_nat W <= sys_maxsize)%Z -> 2 ≤ length toks ->
  exists embs top1_word top1_prob true_y_prob,
    conversation_step (Z.of_nat W) toks = Ok (embs, top1_word, top1_prob, true_y_prob)
    /\ length embs = length toks
    /\ embs !! 0 = Some nan_row
    /\ forall i, i + 1 < length toks ->
         exists j pos,
           embs !! (i + 1)
           = Some (hidden (hidden_state (take (W `min` length toks) (drop j toks)) pos))
           /\ j + W `min` length toks ≤ length toks
           /\ j + pos = i
           /\ take (W `min` length toks) (drop j toks) !! pos = toks !! i.
Proof.
  intros HW Hmax HN. pose proof (conversation_step_spec toks W HW Hmax HN) as Hstep.
  cbv zeta in Hstep. eexists _, _, _, _. split; [exact Hstep|].
  split; [|split].
  - cbn [length]. rewrite length_map, length_gathered. lia.
  - done.
  - intros i Hi.
    exists (i - i `min` (W `min` length toks - 2)), (i `min` (W `min` length toks - 2)).
    split; [|split; [lia|split; [lia|apply gathered_position; lia]]].
    replace (i + 1) with (S i) by lia. rewrite lookup_cons.
    unfold gathered. rewrite !list_lookup_fmap.
    rewrite lookup_seq_lt by lia. done.
Qed.

Lemma embeddings_one_row_per_token_witness :
  2 ≤ 2 /\ (Z.of_nat 2 <= sys_maxsize)%Z /\ 2 ≤ length [5; 7; 9]%Z
  /\ exists embs top1_word top1_prob true_y_prob,
       @conversation_step Toy.whole_word Toy.echo (Z.of_nat 2) [5; 7; 9]%Z
       = Ok (embs, top1_word, top1_prob, true_y_prob)
       /\ length embs = length [5; 7; 9]%Z
       /\ embs !! 0 = Some nan_row
       /\ forall i, i + 1 < length [5; 7; 9]%Z ->
            exists j pos,
              embs !! (i + 1)
              = Some (hidden (@hidden_state Toy.echo
                                (take (2 `min` length [5; 7; 9]%Z) (drop j [5; 7; 9]%Z)) pos))
              /\ j + 2 `min` length [5; 7; 9]%Z ≤ length [5; 7; 9]%Z
              /\ j + pos = i
              /\ take (2 `min` length [5; 7; 9]%Z) (drop j [5; 7; 9]%Z) !! pos
                 = [5; 7; 9]%Z !! i.
Proof.
  split; [lia|]. split; [by vm_compute|]. split; [simpl; lia|].
  apply (@embeddings_one_row_per_token Toy.whole_word Toy.echo [5; 7; 9]%Z 2);
    [lia|by vm_compute|simpl; lia].
Defined.

(** ** Predictions of a conversation *)

Section prediction_facts.
Context `{Tokenizer} `{LanguageModel}.

(** Whatever it is given, the scorer ends each list it returns with [None]. *)
Lemma scorer_last concat_logits sentence_token_ids top1_words top1_probs true_y_prob :
  get_correct_prediction_probability concat_logits sentence_token_ids
  = Ok (top1_words, top1_probs, true_y_prob) ->
  last top1_words = Some None /\ last top1_probs = Some None
  /\ last true_y_prob = Some None.
Proof.
  unfold get_correct_prediction_probability.
  destruct (torch_cat concat_logits) as [e|scores]; [discriminate|].
  rewrite bind_Ok.
  destruct (length scores =? 0).
  { intros [= <- <- <-]. done. }
  match goal with |- (?m ≫= _) = _ -> _ => destruct m as [e|true_y] end; [discriminate|].
  rewrite bind_Ok. cbv zeta.
  destruct (torch_gather _ true_y) as [e|g]; [discriminate|].
  rewrite bind_Ok. intros [= <- <- <-].
  by rewrite !last_snoc.
Qed.

End prediction_facts.

(** C6.  Each list [get_correct_prediction_probability] returns ends with
    [None], whatever it was given.  For a conversation with gathered logits
    (at least two tokens, context length at least two, and at most
    [sys.maxsize], above which no window is made) the scorer does return:
    each list has one entry per token, and the entry of the last token is
    [None]. *)
Theorem predictions_end_with_placeholder `{Tokenizer} `{LanguageModel}
    (toks : list Z) (W : nat) :
  2 ≤ W -> 2 ≤ length toks ->
  (forall concat_logits sentence_token_ids top1_words top1_probs true_y_prob,
     get_correct_prediction_probability concat_logits sentence_token_ids
     = Ok (top1_words, top1_probs, true_y_prob) ->
     last top1_words = Some None /\ last top1_probs = Some None
     /\ last true_y_prob = Some None)
  /\ ((Z.of_nat W <= sys_maxsize)%Z ->
      exists embs top1_words top1_probs true_y_prob,
        conversation_step (Z.of_nat W) toks = Ok (embs, top1_words, top1_probs, true_y_prob)
        /\ length top1_words = length toks
        /\ length top1_probs = length toks
        /\ length true_y_prob = length toks
        /\ top1_words !! (length toks - 1) = Some None
        /\ top1_probs !! (length toks - 1) = Some None
        /\ true_y_prob !! (length toks - 1) = Some None).
Proof.
  intros HW HN. split; [apply scorer_last|]. intros Hmax.
  pose proof (conversation_step_spec toks W HW Hmax HN) as Hstep. cbv zeta in Hstep.
  eexists _, _, _, _. split; [exact Hstep|].
  unfold scored. cbn [fst snd].
  assert (Hzip : length (zip_with prob_at
                           (map softmax (gathered lm_logits (W `min` length toks) toks))
                           (drop 1 toks)) = length toks - 1).
  { rewrite length_zip_with, length_map, length_gathered, length_drop. lia. }
  rewrite !length_app, !length_map, Hzip, !length_gathered. cbn [length].
  repeat split; try lia.
  - rewrite lookup_app_r; rewrite length_map, length_gathered; [|lia].
    by rewrite Nat.sub_diag.
  - rewrite lookup_app_r; rewrite length_map, length_gathered; [|lia].
    by rewrite Nat.sub_diag.
  - rewrite lookup_app_r; rewrite length_map, Hzip; [|lia].
    by rewrite Nat.sub_diag.
Qed.

Lemma predictions_end_with_placeholder_witness :
  2 ≤ 2 /\ 2 ≤ length [5; 7; 9]%Z
  /\ exists embs top1_words top1_probs true_y_prob,
       @conversation_step Toy.whole_word Toy.echo (Z.of_nat 2) [5; 7; 9]%Z
       = Ok (embs, top1_words, top1_probs, true_y_prob)
       /\ length top1_words = length [5; 7; 9]%Z
       /\ length top1_probs = length [5; 7; 9]%Z
       /\ length true_y_prob = length [5; 7; 9]%Z
       /\ top1_words !! (length [5; 7; 9]%Z - 1) = Some None
       /\ top1_probs !! (length [5; 7; 9]%Z - 1) = Some None
       /\ true_y_prob !! (length [5; 7; 9]%Z - 1) = Some None.
Proof.
  split; [lia|]. split; [simpl; lia|].
  apply (@predictions_end_with_placeholder Toy.whole_word Toy.echo [5; 7; 9]%Z 2);
    [lia|simpl; lia|by vm_compute].
Defined.

(** Two tokens under a context length of 2: one window, one gathered row.
    The entry of the first token in each prediction list is a value, the
    entry of the second token is [None]; the embedding rows are the other
    way round. *)
Lemma conversation_step_two_tokens `{Tokenizer} `{LanguageModel} (t1 t2 : Z) :
  window [t1; t2] 2 = Ok [[t1; t2]]
  /\ conversation_step 2 [t1; t2]
     = Ok ([nan_row; hidden (hidden_state [t1; t2] 0)],
           [Some (convert_tokens_to_string
                    (convert_ids_to_tokens (snd (row_max (softmax (lm_logits [t1; t2] 0))))));
            None],
           [Some (fst (row_max (softmax (lm_logits [t1; t2] 0)))); None],
           [Some (prob_at (softmax (lm_logits [t1; t2] 0)) t2); None]).
Proof. split; reflexivity. Qed.

(** ** get_vector *)

(** C9.  A word outside the GloVe table makes the table's own lookup raise
    KeyError; [get_vector] catches it and returns [None].  For a word in
    the table [get_vector] returns the table's vector.  It never raises. *)
Theorem get_vector_recovers_key_error {V} (glove : gmap string V) (x : string) :
  (glove !! x = None <-> KeyedVectors_get_vector glove x = raise KeyError)
  /\ (KeyedVectors_get_vector glove x = raise KeyError -> get_vector x glove = Ok None)
  /\ (forall v, glove !! x = Some v ->
        KeyedVectors_get_vector glove x = Ok v /\ get_vector x glove = Ok (Some v))
  /\ get_vector x glove = Ok (glove !! x).
Proof.
  unfold get_vector, KeyedVectors_get_vector.
  destruct (glove !! x) as [v|].
  - split; [split; discriminate|]. split; [discriminate|].
    split; [|done]. intros v' [= <-]. done.
  - split; [done|]. split; [done|]. split; [discriminate|done].
Qed.

(** ** check_token_is_root *)

(** C8, as stated, fails: RoBERTa and BART are model families
    [select_tokenizer_and_model] accepts, and the root-token tagging raises
    for both. *)
Lemma root_tagging_raises_for_roberta :
  (exists classes args',
     @select_tokenizer_and_model Toy.whole_word (Toy.args "roberta" "625" 2 true)
     = Ok (Some classes, args'))
  /\ @check_token_is_root Toy.whole_word Toy.glove _ Toy.labels
       (Toy.args "roberta" "625" 2 true) [("the", 1%Z, None, "the", 116%Z)]
     = raise (Exception "embedding type doesn't exist")
  /\ @check_token_is_root Toy.whole_word Toy.glove _ Toy.labels
       (Toy.args "bart" "625" 2 true) [("the", 1%Z, None, "the", 116%Z)]
     = raise (Exception "embedding type doesn't exist").
Proof. split; [by eexists _, _|]. split; reflexivity. Qed.

(** C8, as amended.  The root-token tagging raises exactly when the
    embedding type is neither "gpt2" nor "bert"; for these two it returns a
    table with one tagged row per row it was given. *)
Theorem root_tagging_raises_iff `{Tokenizer} `{Glove} `{Labels R}
    (args : Args.t) (df : list (R * option Vec * string * Z)) :
  ((exists e, check_token_is_root args df = raise e)
   <-> Args.embedding_type args <> "gpt2" /\ Args.embedding_type args <> "bert")
  /\ ((exists rows, check_token_is_root args df = Ok rows /\ length rows = length df)
      <-> Args.embedding_type args = "gpt2" \/ Args.embedding_type args = "bert").
Proof.
  unfold check_token_is_root.
  destruct (String.eqb_spec (Args.embedding_type args) "gpt2") as [Hg|Hg].
  { split; split.
    - intros [e He]. discriminate.
    - intros [? _]. done.
    - by left.
    - intros _. eexists. split; [done|]. by rewrite length_map. }
  destruct (String.eqb_spec (Args.embedding_type args) "bert") as [Hb|Hb].
  { split; split.
    - intros [e He]. discriminate.
    - intros [_ ?]. done.
    - by right.
    - intros _. eexists. split; [done|]. by rewrite length_map. }
  split; split.
  - done.
  - intros _. by eexists.
  - intros (rows & Hrows & _). discriminate.
  - intros [?|?]; done.
Qed.

(** ** setup_environ and main *)

Lemma run_bind_Ok {A B} (c : call) (a : A) (k : A -> run B) :
  (called c (Ok a) ≫= k) = let '(calls, r) := k a in (c :: calls, r).
Proof. reflexivity. Qed.

Lemma run_bind_raise {A B} (c : call) (e : exn) (k : A -> run B) :
  (called c (raise e) ≫= k) = ([c], raise e).
Proof. reflexivity. Qed.

Lemma length_sorted (names : list string) : length (sorted names) = length names.
Proof. unfold sorted. apply Permutation_length, merge_sort_Permutation. Qed.


Section setup_facts.
Context `{Tokenizer} `{LanguageModel} `{Glove} `{Labels R} `{!Host R}.

Lemma setup_environ_wrong_count (args : Args.t) (has_model : bool) (names : list string) :
  listdir (path_join (path_join getcwd "data") (Args.subject args)) = Ok names ->
  length names <> expected_conversations (Args.subject args) ->
  setup_environ args has_model = raise AssertionError.
Proof.
  intros Hls Hlen. unfold setup_environ. rewrite Hls, bind_Ok.
  rewrite length_sorted. unfold expected_conversations in Hlen.
  destruct (String.eqb (Args.subject args) "625").
  - destruct (Nat.eqb_spec (length names) 54) as [?|_]; [done|]. done.
  - destruct (Nat.eqb_spec (length names) 79) as [?|_]; [done|]. done.
Qed.

Lemma setup_environ_right_count (args : Args.t) (has_model : bool) (names : list string) :
  listdir (path_join (path_join getcwd "data") (Args.subject args)) = Ok names ->
  length names = expected_conversations (Args.subject args) ->
  setup_environ args has_model <> raise AssertionError.
Proof.
  intros Hls Hlen. unfold setup_environ. rewrite Hls, bind_Ok.
  rewrite length_sorted. unfold expected_conversations in Hlen.
  assert (Hassert :
    (if String.eqb (Args.subject args) "625"
     then assert (length names =? 54) else assert (length names =? 79)) = Ok tt).
  { destruct (String.eqb (Args.subject args) "625"); rewrite Hlen; done. }
  rewrite Hassert, bind_Ok.
  destruct ((1 <? cuda_device_count)%Z && negb has_model); [done|]. rewrite bind_Ok.
  destruct (Args.conversation_id args =? 0)%Z; [done|].
  destruct (Py.index _ _) as [e|f] eqn:Hidx; [|done].
  rewrite bind_raise. intros [= ->].
  unfold Py.index in Hidx.
  repeat (match type of Hidx with
          | context [if ?b then _ else _] => destruct b
          | context [match ?o with Some _ => _ | None => _ end] => destruct o
          end; try discriminate).
Qed.

(** [select_tokenizer_and_model] exits, or returns the arguments with the
    subject they came with. *)
Lemma select_tokenizer_and_model_outcome (args : Args.t) :
  select_tokenizer_and_model args = raise (SystemExit 1)
  \/ exists classes args',
       select_tokenizer_and_model args = Ok (classes, args')
       /\ Args.subject args' = Args.subject args.
Proof.
  unfold select_tokenizer_and_model.
  assert (Hsubject : forall n,
            Args.subject (Args.set_context_length args n) = Args.subject args) by done.
  repeat match goal with
         | |- context [String.eqb ?a ?b] => destruct (String.eqb a b)
         end;
    try (by left);
    right; rewrite bind_Ok; try (by eexists _, _);
    (destruct (Args.history args && (Args.context_length args <=? 0)%Z);
     [|by eexists _, _]);
    cbv zeta; cbn [Args.set_context_length Args.context_length];
    rewrite Z.leb_refl; cbn [assert]; rewrite bind_Ok; by eexists _, _.
Qed.

End setup_facts.

(** C7.  With [names] the listing of the subject's conversation directory:
    [setup_environ] fails its assertion whenever the listing does not have
    54 entries for subject "625", 79 for any other subject, and passes it
    when it has.  On a wrong count [main] stops inside [setup_environ] (or
    has exited before, on an unknown embedding type): no function that runs
    the model has been called. *)
Theorem setup_environ_asserts_conversation_count
    `{Tokenizer} `{LanguageModel} `{Glove} `{Labels R} `{!Host R}
    (args : Args.t) (has_model : bool) (names : list string) :
  listdir (path_join (path_join getcwd "data") (Args.subject args)) = Ok names ->
  expected_conversations "625" = 54
  /\ (Args.subject args <> "625" -> expected_conversations (Args.subject args) = 79)
  /\ (length names = expected_conversations (Args.subject args) ->
      setup_environ args has_model <> raise AssertionError)
  /\ (length names <> expected_conversations (Args.subject args) ->
      setup_environ args has_model = raise AssertionError
      /\ (main args = ([CallSelectTokenizerAndModel], raise (SystemExit 1))
          \/ main args = ([CallSelectTokenizerAndModel; CallSetupEnviron],
                          raise AssertionError))
      /\ forall calls r, main args = (calls, r) ->
           Forall (fun c => runs_model c = false) calls /\ exists e, r = raise e).
Proof.
  intros Hls. split; [done|]. split.
  { intros Hne. unfold expected_conversations.
    by destruct (String.eqb_spec (Args.subject args) "625"). }
  split; [by apply setup_environ_right_count|].
  intros Hlen. split; [by apply setup_environ_wrong_count with names|].
  assert (Hmain : main args = ([CallSelectTokenizerAndModel], raise (SystemExit 1))
                  \/ main args = ([CallSelectTokenizerAndModel; CallSetupEnviron],
                                  raise AssertionError)).
  { unfold main.
    destruct (select_tokenizer_and_model_outcome args)
      as [Hexit|(classes & args' & Hsel & Hsubj)].
    - left. by rewrite Hexit.
    - right. rewrite Hsel, run_bind_Ok. cbv beta iota.
      rewrite (setup_environ_wrong_count args' _ names) by (by rewrite Hsubj).
      by rewrite run_bind_raise. }
  split; [exact Hmain|].
  intros calls r Hr. destruct Hmain as [Hm|Hm]; rewrite Hm in Hr;
    injection Hr as <- <-; (split; [by repeat constructor|by eexists]).
Qed.

Lemma setup_environ_asserts_conversation_count_witness :
  @listdir _ (Toy.host 53)
    (path_join (path_join (@getcwd _ (Toy.host 53)) "data")
               (Args.subject (Toy.args "gpt2" "625" 2 true)))
  = Ok (replicate 53 "conversation")
  /\ length (replicate 53 "conversation" : list string) <> 54
  /\ @setup_environ _ (Toy.host 53) (Toy.args "gpt2" "625" 2 true) true
     = raise AssertionError
  /\ @main Toy.whole_word Toy.echo Toy.glove _ Toy.labels (Toy.host 53)
       (Toy.args "gpt2" "625" 2 true)
     = ([CallSelectTokenizerAndModel; CallSetupEnviron], raise AssertionError).
Proof.
  split; [reflexivity|]. split; [discriminate|].
  destruct (@setup_environ_asserts_conversation_count
              Toy.whole_word Toy.echo Toy.glove _ Toy.labels (Toy.host 53)
              (Toy.args "gpt2" "625" 2 true) true (replicate 53 "conversation")
              eq_refl) as (_ & _ & _ & Hwrong).
  destruct (Hwrong ltac:(discriminate)) as (Hsetup & _ & _).
  split; [exact Hsetup|]. reflexivity.
Defined.

(** ** tokenize_and_explode *)

Lemma get_vector_lookup {V} (glove : gmap string V) (x : string) :
  get_vector x glove = Ok (glove !! x).
Proof. unfold get_vector, KeyedVectors_get_vector. by destruct (glove !! x). Qed.

Lemma mapE_app {A B} (f : A -> result B) (l1 l2 : list A) (r1 r2 : list B) :
  mapE f l1 = Ok r1 -> mapE f l2 = Ok r2 -> mapE f (l1 ++ l2) = Ok (r1 ++ r2).
Proof.
  revert r1. induction l1 as [|a l1 IH]; intros r1 H1 H2.
  - injection H1 as <-. exact H2.
  - cbn [mapE app] in *. destruct (f a) as [e|b]; [discriminate|].
    rewrite bind_Ok in *. destruct (mapE f l1) as [e|bs]; [discriminate|].
    rewrite bind_Ok in H1. injection H1 as <-.
    by rewrite (IH bs eq_refl H2).
Qed.

Lemma map_flat_map {A B C} (g : B -> C) (h : A -> list B) (l : list A) :
  map g (flat_map h l) = flat_map (fun a => map g (h a)) l.
Proof. induction l as [|a l IH]; [done|]. cbn [flat_map]. by rewrite map_app, IH. Qed.


Section explode_facts.
Context `{Tokenizer} `{Glove} `{Labels R}.
Implicit Types (r : R) (df : list R) (args : Args.t).




Lemma add_glove_embeddings_50 df :
  add_glove_embeddings df (Some 50%Z) = Ok (map (fun r => (r, glove50 !! word r)) df).
Proof.
  unfold add_glove_embeddings. rewrite decide_True by done.
  apply mapE_Ok, Forall_forall. intros r _. by rewrite get_vector_lookup.
Qed.

Lemma explode_remove_punctuation {X} (f : X -> list string) (l : list X) :
  Forall (fun x => f x <> []) l ->
  remove_punctuation (explode (map (fun x => (x, f x)) l))
  = flat_map (fun x => map (fun tok => (x, Some tok)) (List.filter not_punctuation (f x))) l.
Proof.
  unfold remove_punctuation, explode.
  induction 1 as [|x l Hx _ IH]; [done|].
  cbn [map flat_map fst snd]. rewrite List.filter_app. f_equal; [|exact IH].
  destruct (f x) as [|t ts]; [done|].
  change ((x, Some t) :: map (fun tok => (x, Some tok)) ts)
    with (map (fun tok : string => (x, Some tok)) (t :: ts)).
  by rewrite filter_map_swap.
Qed.

Lemma convert_token_to_idx_tokens {X} (ts : X -> list string) (l : list X) :
  convert_token_to_idx (flat_map (fun x => map (fun tok => (x, Some tok)) (ts x)) l)
  = Ok (flat_map (fun x => map (fun tok => (x, tok, convert_tokens_to_ids tok)) (ts x)) l).
Proof.
  unfold convert_token_to_idx. induction l as [|x l IH]; [done|].
  cbn [flat_map]. apply mapE_app; [|exact IH].
  rewrite <- (map_map (fun tok => (x, Some tok))
                      (fun c => (fst c, default "" (snd c),
                                 convert_tokens_to_ids (default "" (snd c))))).
  apply mapE_Ok, Forall_forall. intros c Hc.
  apply list_elem_of_fmap in Hc as (tok & -> & _). done.
Qed.

Lemma check_token_is_root_rows args (l : list R) (ts : R -> list string) :
  Args.embedding_type args = "gpt2" \/ Args.embedding_type args = "bert" ->
  check_token_is_root args
    (flat_map (fun x => map (fun tok => (x, tok, convert_tokens_to_ids tok)) (ts x.1))
              (map (fun r => (r, glove50 !! word r)) l))
  = Ok (flat_map (fun r =>
                    map (fun tok => TokenRow r (glove50 !! word r) tok
                                      (convert_tokens_to_ids tok) (root_tag_of args r tok))
                        (ts r)) l).
Proof.
  intros Htype. unfold check_token_is_root, root_tag_of.
  destruct (String.eqb_spec (Args.embedding_type args) "gpt2") as [Hg|Hg].
  - f_equal. rewrite map_flat_map, flat_map_concat_map, map_map.
    rewrite <- flat_map_concat_map. apply flat_map_ext. intros r.
    by rewrite map_map.
  - destruct Htype as [?|Hb]; [done|]. rewrite Hb. cbn [String.eqb Ascii.eqb Bool.eqb].
    f_equal. rewrite map_flat_map, flat_map_concat_map, map_map.
    rewrite <- flat_map_concat_map. apply flat_map_ext. intros r.
    by rewrite map_map.
Qed.

Lemma tokenize_and_explode_spec args df :
  Args.embedding_type args = "gpt2" \/ Args.embedding_type args = "bert" ->
  Forall (fun r => tokenize (word r) <> []) df ->
  tokenize_and_explode args df = Ok (flat_map (rows_of_word args) df).
Proof.
  intros Htype Hdf. unfold tokenize_and_explode.
  rewrite add_glove_embeddings_50, bind_Ok. cbv zeta.
  rewrite (explode_remove_punctuation (fun x => tokenize (word x.1))).
  2:{ apply Forall_forall. intros x Hx.
      apply list_elem_of_fmap in Hx as (r & -> & Hr).
      rewrite Forall_forall in Hdf. by apply Hdf. }
  rewrite convert_token_to_idx_tokens, bind_Ok.
  apply (check_token_is_root_rows args df
           (fun r => List.filter not_punctuation (tokenize (word r))) Htype).
Qed.

(** A NaN token makes [convert_token_to_idx] raise. *)
Lemma convert_token_to_idx_nan {X} (l : list (X * cell)) :
  Exists (fun c => snd c = None) l -> convert_token_to_idx l = raise TypeError.
Proof.
  unfold convert_token_to_idx.
  induction 1 as [c l Hc|c l _ IH]; cbn [mapE].
  - by rewrite Hc.
  - destruct (snd c); [|done]. by rewrite bind_Ok, IH.
Qed.

(** A word without a token leaves a NaN token in the table, which
    [remove_punctuation] keeps. *)
Lemma explode_nan {X} (f : X -> list string) (l : list X) :
  Exists (fun x => f x = []) l ->
  Exists (fun c => snd c = None) (remove_punctuation (explode (map (fun x => (x, f x)) l))).
Proof.
  unfold remove_punctuation, explode.
  induction 1 as [x l Hx|x l _ IH]; cbn [map flat_map fst snd];
    rewrite List.filter_app; apply Exists_app.
  - left. rewrite Hx. cbn. by constructor.
  - by right.
Qed.

Lemma tokenize_and_explode_no_token args df :
  Exists (fun r => tokenize (word r) = []) df ->
  tokenize_and_explode args df = raise TypeError.
Proof.
  intros Hdf. unfold tokenize_and_explode.
  rewrite add_glove_embeddings_50, bind_Ok. cbv zeta.
  rewrite convert_token_to_idx_nan; [done|].
  apply (explode_nan (fun x => tokenize (word x.1))).
  apply Exists_fmap. exact Hdf.
Qed.

End explode_facts.

(** C5, as stated, fails: a word cut into the tokens "a" and "." keeps one
    row, since the row of the punctuation mark is dropped. *)
Lemma exploded_rows_drop_punctuation :
  @tokenize Toy.by_character "a." = ["a"; "."]
  /\ exists rows,
       @tokenize_and_explode Toy.by_character Toy.glove _ Toy.labels
         (Toy.args "gpt2" "625" 2 true) [("a.", 1%Z)] = Ok rows
       /\ map token rows = ["a"]
       /\ length rows <> 2.
Proof. split; [reflexivity|]. eexists. split; [vm_compute; reflexivity|]. split; done. Qed.

(** C5, as amended.  Under "gpt2" or "bert", for a table whose words all
    have at least one token, the exploded table holds, word after word, one
    row for each token of the word that is not a punctuation mark, in the
    order the tokenizer gave them; each row carries the word's record and
    its GloVe vector.  A word none of whose k tokens is a punctuation mark
    has exactly k rows.  A table with a word that has no token gives no
    table: the call raises TypeError. *)
Theorem exploded_rows_per_word `{Tokenizer} `{Glove} `{Labels R}
    (args : Args.t) (df : list R) :
  Args.embedding_type args = "gpt2" \/ Args.embedding_type args = "bert" ->
  (Forall (fun r => tokenize (word r) <> []) df ->
   tokenize_and_explode args df = Ok (flat_map (rows_of_word args) df))
  /\ (Exists (fun r => tokenize (word r) = []) df ->
      tokenize_and_explode args df = raise TypeError)
  /\ forall r,
       map token (rows_of_word args r) = List.filter not_punctuation (tokenize (word r))
       /\ Forall (fun row => label row = r /\ glove50_embeddings row = glove50 !! word r)
                 (rows_of_word args r)
       /\ (Forall (fun tok => tok ∉ punctuation) (tokenize (word r)) ->
           map token (rows_of_word args r) = tokenize (word r)
           /\ length (rows_of_word args r) = length (tokenize (word r))).
Proof.
  intros Htype. split; [by apply tokenize_and_explode_spec|].
  split; [apply tokenize_and_explode_no_token|].
  intros r. unfold rows_of_word, kept_tokens.
  assert (Htok : forall ts : list string,
            map token (map (fun tok => TokenRow r (glove50 !! word r) tok
                                         (convert_tokens_to_ids tok) (root_tag_of args r tok))
                           ts) = ts).
  { intros ts. rewrite map_map. cbn [token]. apply map_id. }
  split; [apply Htok|]. split.
  - apply Forall_forall. intros row Hrow.
    apply list_elem_of_fmap in Hrow as (tok & -> & _). done.
  - intros Hnone.
    assert (Hkeep : List.filter not_punctuation (tokenize (word r)) = tokenize (word r)).
    { induction Hnone as [|tok ts Htok' _ IH]; [done|].
      cbn [List.filter]. unfold not_punctuation at 1.
      rewrite bool_decide_eq_false_2 by done. cbn [negb]. by rewrite IH. }
    rewrite Hkeep. split; [apply Htok|]. by rewrite length_map.
Qed.

Lemma exploded_rows_per_word_witness :
  Forall (fun r => @tokenize Toy.by_character (@word _ Toy.labels r) <> [])
         [("ab", 1%Z); ("c", 1%Z)]
  /\ @tokenize_and_explode Toy.by_character Toy.glove _ Toy.labels
       (Toy.args "gpt2" "625" 2 true) [("ab", 1%Z); ("c", 1%Z)]
     = Ok (flat_map (@rows_of_word Toy.by_character Toy.glove _ Toy.labels
                       (Toy.args "gpt2" "625" 2 true))
                    [("ab", 1%Z); ("c", 1%Z)])
  /\ map token (@rows_of_word Toy.by_character Toy.glove _ Toy.labels
                  (Toy.args "gpt2" "625" 2 true) ("ab", 1%Z))
     = ["a"; "b"]
  /\ @tokenize_and_explode Toy.by_character Toy.glove _ Toy.labels
       (Toy.args "gpt2" "625" 2 true) [("ab", 1%Z); ("", 1%Z)]
     = raise TypeError.
Proof.
  assert (Hdf : Forall (fun r => @tokenize Toy.by_character (@word _ Toy.labels r) <> [])
                       [("ab", 1%Z); ("c", 1%Z)]) by (by repeat constructor).
  split; [exact Hdf|].
  destruct (@exploded_rows_per_word Toy.by_character Toy.glove _ Toy.labels
              (Toy.args "gpt2" "625" 2 true) [("ab", 1%Z); ("c", 1%Z)]
              (or_introl eq_refl))
    as (Hrows & _ & Hword).
  split; [exact (Hrows Hdf)|]. split; [reflexivity|].
  apply (@exploded_rows_per_word Toy.by_character Toy.glove _ Toy.labels
           (Toy.args "gpt2" "625" 2 true) [("ab", 1%Z); ("", 1%Z)]
           (or_introl eq_refl)).
  apply Exists_cons_tl, Exists_cons_hd. reflexivity.
Defined.

(** ** The output table *)

Lemma not_punctuation_the_cat : not_punctuation "the" = true /\ not_punctuation "cat" = true.
Proof. split; vm_compute; reflexivity. Qed.

(** C2, on the code.  The words "the" and "cat" of one conversation, one
    token each, under a context length of 2: the output table has two rows.
    The row of "the" has the NaN embedding and a real true-prediction
    probability (the one the model gives "cat" after "the") and a real top-1
    prediction; the row of "cat" has [None] in the three prediction
    columns. *)
Theorem the_cat_first_row_has_probability `{Tokenizer} `{LanguageModel} `{Glove} `{Labels R}
    (args : Args.t) (file : string) (the cat : R) :
  Args.embedding_type args = "gpt2" -> Args.context_length args = 2%Z ->
  word the = "the" -> word cat = "cat" -> conversation_id the = conversation_id cat ->
  tokenize "the" = ["the"] -> tokenize "cat" = ["cat"] ->
  let ids := [convert_tokens_to_ids "the"; convert_tokens_to_ids "cat"] in
  exists row1 row2,
    window ids (Args.context_length args) = Ok [ids]
    /\ generate_embeddings_with_context args (Some file) [the; cat] = Ok [row1; row2]
    /\ label (row row1) = the /\ token (row row1) = "the"
    /\ label (row row2) = cat /\ token (row row2) = "cat"
    /\ embeddings row1 = nan_row
    /\ embeddings row2 = hidden (hidden_state ids 0)
    /\ true_pred_prob row1
       = Some (prob_at (softmax (lm_logits ids 0)) (convert_tokens_to_ids "cat"))
    /\ true_pred_prob row2 = None
    /\ top1_pred_prob row1 = Some (fst (row_max (softmax (lm_logits ids 0))))
    /\ top1_pred_prob row2 = None
    /\ is_Some (top1_pred row1)
    /\ top1_pred row2 = None.
Proof.
  intros Htype Hctx Hthe Hcat Hconv Htok1 Htok2 ids.
  destruct not_punctuation_the_cat as [Hp1 Hp2].
  unfold generate_embeddings_with_context, embeddings_table.
  rewrite tokenize_and_explode_spec; [|by left|].
  2:{ repeat constructor; rewrite ?Hthe, ?Hcat, ?Htok1, ?Htok2; done. }
  rewrite bind_Ok. cbn [flat_map]. unfold rows_of_word, kept_tokens.
  rewrite Hthe, Hcat, Htok1, Htok2. cbn [List.filter]. rewrite Hp1, Hp2.
  cbn [map app label token_id]. rewrite Hconv.
  cbn [unique List.filter]. rewrite Z.eqb_refl. cbn [negb conversation_loop].
  cbn [List.filter label]. rewrite Hconv, Z.eqb_refl. cbn [map token_id].
  rewrite Hctx.
  destruct (conversation_step_two_tokens (convert_tokens_to_ids "the")
                                         (convert_tokens_to_ids "cat")) as [Hwin Hstep].
  rewrite Hstep, !bind_Ok.
  eexists _, _. split; [exact Hwin|]. split; [reflexivity|].
  cbn. repeat split; done.
Qed.

Lemma the_cat_first_row_has_probability_witness :
  exists row1 row2,
    @generate_embeddings_with_context Toy.whole_word Toy.echo Toy.glove _ Toy.labels
      (Toy.args "gpt2" "625" 2 true) (Some "results/625/embeddings/gpt2_cnxt_2/conversation")
      [("the", 1%Z); ("cat", 1%Z)]
    = Ok [row1; row2]
    /\ true_pred_prob row1 = Some 99%Z
    /\ true_pred_prob row2 = None.
Proof.
  destruct (@the_cat_first_row_has_probability Toy.whole_word Toy.echo Toy.glove _ Toy.labels
              (Toy.args "gpt2" "625" 2 true)
              "results/625/embeddings/gpt2_cnxt_2/conversation"
              ("the", 1%Z) ("cat", 1%Z)
              eq_refl eq_refl eq_refl eq_refl eq_refl eq_refl eq_refl)
    as (row1 & row2 & _ & Hrows & _ & _ & _ & _ & _ & _ & Hp1 & Hp2 & _).
  exists row1, row2. split; [exact Hrows|]. split; [exact Hp1|exact Hp2].
Defined.

(** ** A whole run *)

(** With 54 conversations for subject "625", [main] goes through all four
    calls of the history mode and ends normally. *)
Example main_runs_with_54_conversations :
  @main Toy.whole_word Toy.echo Toy.glove _ Toy.labels (Toy.host 54)
    (Toy.args "gpt2" "625" 2 true)
  = ([CallSelectTokenizerAndModel; CallSetupEnviron; CallLoadPickle;
      CallGenerateEmbeddingsWithContext], Ok tt).
Proof. vm_compute. reflexivity. Qed.

(** * Further properties *)

(** ** window, beyond the claims *)

Section window_more.
Context {A : Type}.
Implicit Types (s w : list A) (W k m : nat).

(** Once the window is no longer than one element, every turn of the loop
    yields the next element alone. *)
Lemma window_loop_singletons s : forall w,
  length w ≤ 1 -> window_loop w s = map (fun x => [x]) s.
Proof.
  induction s as [|x s IH]; intros w Hw; [done|].
  cbn [window_loop map].
  assert (Htail : Py.tail_slice w = []).
  { unfold Py.tail_slice. apply drop_ge. lia. }
  rewrite Htail. cbn [app]. f_equal. apply IH. cbn [length]. lia.
Qed.

(** The last elements of the windows that start at [k], [k+1], ... *)
Lemma window_last_elements s W m : forall k,
  1 ≤ W -> k + W + m ≤ length s + 1 ->
  Forall2 (fun v x => last v = Some x)
          (map (fun j => take W (drop j s)) (seq k m))
          (take m (drop (k + W - 1) s)).
Proof.
  induction m as [|m IH]; intros k HW Hk; [constructor|].
  cbn [seq map].
  destruct (lookup_lt_is_Some_2 s (k + W - 1)) as [x Hx]; [lia|].
  rewrite (drop_S s x (k + W - 1) Hx). cbn [take]. constructor.
  - rewrite last_lookup, length_take, length_drop.
    rewrite lookup_take_lt by lia. rewrite lookup_drop, <- Hx. f_equal. lia.
  - replace (S (k + W - 1)) with (S k + W - 1) by lia. apply IH; lia.
Qed.

End window_more.

(** X1.  Consecutive windows overlap in all but one element: a window without
    its first element is the next window without its last.  The sequence is
    a Python sequence: it has at most [sys.maxsize] elements. *)
Theorem window_consecutive_overlap {A} (s : list A) (W : nat) :
  (Z.of_nat (length s) <= sys_maxsize)%Z ->
  1 ≤ W -> W ≤ length s ->
  exists ws,
    window s (Z.of_nat W) = Ok ws
    /\ forall i w w', ws !! i = Some w -> ws !! (S i) = Some w' ->
         drop 1 w = take (W - 1) w'.
Proof.
  intros Hmax HW HN. eexists. split; [apply window_full; lia|].
  intros i w w' Hw Hw'.
  rewrite list_lookup_fmap in Hw, Hw'.
  destruct (seq 0 (length s - W + 1) !! i) as [j|] eqn:Hj; [|done].
  destruct (seq 0 (length s - W + 1) !! S i) as [j'|] eqn:Hj'; [|done].
  apply lookup_seq in Hj as [-> _]. apply lookup_seq in Hj' as [-> _].
  cbn in Hw, Hw'. injection Hw as <-. injection Hw' as <-.
  rewrite take_take. replace ((W - 1) `min` W) with (W - 1) by lia.
  replace (S i) with (i + 1) by lia.
  rewrite <- (drop_drop s 1 i), (take_drop_commute (drop i s) (W - 1) 1).
  replace (1 + (W - 1)) with W by lia. done.
Qed.

Lemma window_consecutive_overlap_witness :
  (Z.of_nat (length [10; 20; 30]%Z) <= sys_maxsize)%Z
  /\ 1 ≤ 2 /\ 2 ≤ length [10; 20; 30]%Z
  /\ exists ws,
       window [10; 20; 30]%Z (Z.of_nat 2) = Ok ws
       /\ forall i w w', ws !! i = Some w -> ws !! (S i) = Some w' ->
            drop 1 w = take (2 - 1) w'.
Proof.
  split; [by vm_compute|]. split; [lia|]. split; [simpl; lia|].
  apply (window_consecutive_overlap [10; 20; 30]%Z 2); [by vm_compute|lia|simpl; lia].
Defined.

(** X2.  For a window size between 1 and [sys.maxsize] the sequence can be
    rebuilt from its windows: the first window, followed by the last element
    of every later window, is the sequence. *)
Theorem window_rebuilds_sequence {A} (s : list A) (W : nat) :
  1 ≤ W -> (Z.of_nat W <= sys_maxsize)%Z ->
  exists w ws lasts,
    window s (Z.of_nat W) = Ok (w :: ws)
    /\ Forall2 (fun v x => last v = Some x) ws lasts
    /\ w ++ lasts = s.
Proof.
  intros HW Hmax. destruct (decide (W ≤ length s)) as [Hle|Hgt].
  - exists (take W s), (map (fun j => take W (drop j s)) (seq 1 (length s - W))), (drop W s).
    split; [|split].
    + rewrite window_full by done.
      replace (length s - W + 1) with (S (length s - W)) by lia.
      cbn [seq map]. by rewrite drop_0.
    + pose proof (window_last_elements s W (length s - W) 1 HW ltac:(lia)) as Hlast.
      replace (1 + W - 1) with W in Hlast by lia.
      rewrite take_ge in Hlast by (rewrite length_drop; lia). exact Hlast.
    + apply take_drop.
  - exists s, [], []. split; [|split].
    + apply window_whole; lia.
    + constructor.
    + apply app_nil_r.
Qed.

Lemma window_rebuilds_sequence_witness :
  1 ≤ 2 /\ (Z.of_nat 2 <= sys_maxsize)%Z
  /\ exists w ws lasts,
       window [10; 20; 30]%Z (Z.of_nat 2) = Ok (w :: ws)
       /\ Forall2 (fun v x => last v = Some x) ws lasts
       /\ w ++ lasts = [10; 20; 30]%Z.
Proof.
  split; [lia|]. split; [by vm_compute|].
  apply (window_rebuilds_sequence [10; 20; 30]%Z 2); [lia|by vm_compute].
Defined.

Lemma window_zero {A} (s : list A) : window s 0 = Ok ([] :: map (fun x => [x]) s).
Proof.
  unfold window. rewrite islice_accepts by (split; [lia|apply small_below_maxsize; lia]).
  cbn [Z.to_nat take drop length Nat.leb app]. rewrite drop_0.
  f_equal. f_equal. apply window_loop_singletons. simpl. lia.
Qed.

Lemma window_negative {A} (s : list A) (n : Z) : (n < 0)%Z -> window s n = raise ValueError.
Proof. intros Hn. unfold window. destruct (Z.ltb_spec n 0) as [_|?]; [done|lia]. Qed.

(** X3.  A window size of 0 does not give windows of width 0: after one
    empty window, every element comes alone.  A negative size is refused. *)
Theorem window_nonpositive_size {A} (s : list A) :
  window s 0 = Ok ([] :: map (fun x => [x]) s)
  /\ forall n, (n < 0)%Z -> window s n = raise ValueError.
Proof. split; [apply window_zero|apply window_negative]. Qed.

Lemma window_nonpositive_size_example :
  window [10; 20]%Z 0 = Ok [[]; [10]; [20]]%Z /\ window [10; 20]%Z (-1) = raise ValueError.
Proof. split; reflexivity. Qed.

(** ** gather_logits, beyond the claims *)

(** X4.  On a well-formed batch [gather_logits] fails in two situations
    only, both with IndexError: the first batch has no window, or the
    windows have fewer than two positions and the batch is not a
    one-window first batch. *)
Theorem gather_logits_raises_iff {V} (batch_num : nat) (rows : list (list V)) (L : nat) :
  Forall (fun r => length r = L) rows ->
  ((exists e, gather_logits batch_num (Tensor rows L) = raise e)
   <-> (batch_num = 0 /\ rows = [])
       \/ (L < 2 /\ ~ (batch_num = 0 /\ length rows = 1)))
  /\ (forall e, gather_logits batch_num (Tensor rows L) = raise e -> e = IndexError).
Proof.
  intros Hrows.
  assert (Hcol : forall from,
            (L < 2 -> column_from_end from 2 (Tensor rows L) = raise IndexError)
            /\ (2 ≤ L -> exists picks, column_from_end from 2 (Tensor rows L) = Ok picks)).
  { intros from. split.
    - intros HL. unfold column_from_end. cbn [t_width].
      by destruct (Nat.ltb_spec L 2) as [_|?]; [|lia].
    - intros HL. destruct (column_from_end_picks from 2 rows L) as (picks & Hp & _);
        [lia|lia|done|]. by exists picks. }
  unfold gather_logits. cbn [t_rows].
  destruct batch_num as [|n]; cbn [Nat.eqb].
  - destruct rows as [|w [|w' rest]]; cbn [length Nat.eqb].
    + split; [|by intros e [= <-]].
      split; [intros _; by left|intros _; by eexists].
    + split; [|intros e He; discriminate].
      split; [intros [e He]; discriminate|].
      intros [[_ ?]|[_ Hno]]; [done|]. by destruct Hno.
    + unfold first_row_init. cbn [t_rows Py.first]. rewrite bind_Ok.
      destruct (Hcol 1) as [Hlt Hge].
      destruct (decide (L < 2)) as [HL|HL].
      * rewrite (Hlt HL). split; [|by intros e [= <-]].
        split; [intros _; right; split; [done|]; intros [_ ?]; simpl in *; lia|].
        intros _. by eexists.
      * destruct (Hge ltac:(lia)) as [picks ->]. rewrite bind_Ok.
        split; [|intros e He; discriminate].
        split; [intros [e He]; discriminate|].
        intros [[_ ?]|[? _]]; [done|lia].
  - destruct (Hcol 0) as [Hlt Hge].
    destruct (decide (L < 2)) as [HL|HL].
    + rewrite (Hlt HL). split; [|by intros e [= <-]].
      split; [intros _; right; split; [done|]; intros [? _]; lia|].
      intros _. by eexists.
    + destruct (Hge ltac:(lia)) as [picks ->].
      split; [|intros e He; discriminate].
      split; [intros [e He]; discriminate|].
      intros [[? _]|[? _]]; [done|lia].
Qed.

Lemma gather_logits_raises_iff_witness :
  Forall (fun r => length r = 1) [[1]; [2]]%Z
  /\ gather_logits 0 (Tensor [[1]; [2]]%Z 1) = raise IndexError
  /\ ((exists e, gather_logits 0 (Tensor [[1]; [2]]%Z 1) = raise e)
      <-> (0 = 0 /\ [[1]; [2]]%Z = [])
          \/ (1 < 2 /\ ~ (0 = 0 /\ length [[1]; [2]]%Z = 1))).
Proof.
  assert (H : Forall (fun r => length r = 1) [[1]; [2]]%Z) by (by repeat constructor).
  split; [exact H|]. split; [reflexivity|].
  apply (gather_logits_raises_iff 0 [[1]; [2]]%Z 1 H).
Defined.

(** ** One conversation, beyond the claims *)

(** A context length that [islice] refuses ends the conversation step at
    once. *)
Lemma conversation_step_refused `{Tokenizer} `{LanguageModel}
    (context_length : Z) (toks : list Z) :
  (context_length < 0)%Z \/ (sys_maxsize < context_length)%Z ->
  conversation_step context_length toks = raise ValueError.
Proof.
  intros [Hneg|Habove]; unfold conversation_step.
  - by rewrite window_negative.
  - by rewrite window_above_maxsize.
Qed.

(** Under a context length of 0 the windows are an empty one and then one
    per token: the tensor made of them has shape (N + 1, 0), and the first
    batch has no second-to-last position to take. *)
Lemma conversation_step_zero `{Tokenizer} `{LanguageModel} (toks : list Z) :
  toks <> [] -> conversation_step 0 toks = raise IndexError.
Proof.
  intros Htoks. unfold conversation_step. rewrite window_zero, bind_Ok.
  destruct toks as [|t toks]; [done|]. reflexivity.
Qed.

Lemma conversation_step_one `{Tokenizer} `{LanguageModel} (context_length : Z) (t : Z) :
  (1 ≤ context_length)%Z -> (context_length <= sys_maxsize)%Z ->
  conversation_step context_length [t] = Ok ([nan_row], [None], [None], [None]).
Proof.
  intros Hctx Hmax. unfold conversation_step.
  assert (Hwin : window [t] context_length = Ok [[t]]).
  { destruct (decide (context_length = 1%Z)) as [->|Hne]; [reflexivity|].
    apply window_whole; [simpl; lia|done]. }
  rewrite Hwin. reflexivity.
Qed.

(** X6.  A conversation of a single token goes through under any context
    length between 1 and [sys.maxsize]: its embedding is the NaN row and its
    three prediction entries are [None]; none of the model's output for it
    is kept. *)
Theorem conversation_step_single_token `{Tokenizer} `{LanguageModel}
    (context_length : Z) (t : Z) :
  (1 ≤ context_length)%Z -> (context_length <= sys_maxsize)%Z ->
  conversation_step context_length [t] = Ok ([nan_row], [None], [None], [None]).
Proof. apply conversation_step_one. Qed.

Lemma conversation_step_single_token_witness :
  (1 ≤ 1024)%Z /\ (1024 <= sys_maxsize)%Z
  /\ @conversation_step Toy.whole_word Toy.echo 1024 [5]%Z
     = Ok ([nan_row], [None], [None], [None]).
Proof.
  split; [lia|]. split; [by vm_compute|].
  apply (@conversation_step_single_token Toy.whole_word Toy.echo 1024 5);
    [lia|by vm_compute].
Defined.

(** X7.  Where the predictions of a row come from.  For a conversation of at
    least two tokens under a context length of at least two (and at most
    [sys.maxsize]), the entries of token i (i not the last) are computed
    from the scores the model gives at the position of token i itself, that
    is at position [pos] of the window that starts at token [j], with
    [j + pos = i]; the true-token probability is the one of token i + 1
    under those scores. *)
Theorem predictions_are_for_the_next_token `{Tokenizer} `{LanguageModel}
    (toks : list Z) (W : nat) :
  2 ≤ W -> (Z.of_nat W <= sys_maxsize)%Z -> 2 ≤ length toks ->
  exists embs top1_words top1_probs true_y_prob,
    conversation_step (Z.of_nat W) toks = Ok (embs, top1_words, top1_probs, true_y_prob)
    /\ forall i next, i + 1 < length toks -> toks !! (i + 1) = Some next ->
         exists j pos,
           let scores := softmax (lm_logits (take (W `min` length toks) (drop j toks)) pos) in
           j + pos = i
           /\ take (W `min` length toks) (drop j toks) !! pos = toks !! i
           /\ j + W `min` length toks ≤ length toks
           /\ true_y_prob !! i = Some (Some (prob_at scores next))
           /\ top1_probs !! i = Some (Some (fst (row_max scores)))
           /\ top1_words !! i
              = Some (Some (convert_tokens_to_string
                              (convert_ids_to_tokens (snd (row_max scores)))))
           /\ embs !! (i + 1)
              = Some (hidden (hidden_state (take (W `min` length toks) (drop j toks)) pos)).
Proof.
  intros HW Hmax HN. pose proof (conversation_step_spec toks W HW Hmax HN) as Hstep.
  cbv zeta in Hstep. eexists _, _, _, _. split; [exact Hstep|].
  intros i next Hi Hnext.
  set (L := W `min` length toks).
  exists (i - i `min` (L - 2)), (i `min` (L - 2)). cbv zeta.
  assert (Hrow : forall {V} (out : list Z -> nat -> V),
            gathered out L toks !! i
            = Some (out (take L (drop (i - i `min` (L - 2)) toks)) (i `min` (L - 2)))).
  { intros V out. unfold gathered. rewrite list_lookup_fmap, lookup_seq_lt by lia. done. }
  split; [unfold L; lia|].
  split; [apply gathered_position; unfold L; lia|]. split; [unfold L; lia|].
  unfold scored. cbn [fst snd].
  split; [|split; [|split]].
  - rewrite lookup_app_l.
    2:{ rewrite length_map, length_zip_with, length_map, length_gathered, length_drop. lia. }
    rewrite list_lookup_fmap, lookup_zip_with, list_lookup_fmap, Hrow.
    rewrite lookup_drop. replace (1 + i) with (i + 1) by lia. rewrite Hnext. done.
  - rewrite lookup_app_l by (rewrite length_map, length_gathered; lia).
    rewrite list_lookup_fmap, Hrow. done.
  - rewrite lookup_app_l by (rewrite length_map, length_gathered; lia).
    rewrite list_lookup_fmap, Hrow. done.
  - replace (i + 1) with (S i) by lia. rewrite lookup_cons.
    rewrite list_lookup_fmap, Hrow. done.
Qed.

Lemma predictions_are_for_the_next_token_witness :
  2 ≤ 2 /\ (Z.of_nat 2 <= sys_maxsize)%Z /\ 2 ≤ length [5; 7; 9]%Z
  /\ exists embs top1_words top1_probs true_y_prob,
       @conversation_step Toy.whole_word Toy.echo (Z.of_nat 2) [5; 7; 9]%Z
       = Ok (embs, top1_words, top1_probs, true_y_prob)
       /\ true_y_prob = [Some 7%Z; Some 9%Z; None].
Proof.
  split; [lia|]. split; [by vm_compute|]. split; [simpl; lia|].
  destruct (@predictions_are_for_the_next_token Toy.whole_word Toy.echo [5; 7; 9]%Z 2)
    as (embs & w & p & t & Hstep & _); [lia|by vm_compute|simpl; lia|].
  exists embs, w, p, t. split; [exact Hstep|].
  vm_compute in Hstep. by injection Hstep as _ _ _ <-.
Defined.

(** ** The output table, beyond the claims *)

Lemma unique_In (l : list Z) (x : Z) : In x (unique l) <-> In x l.
Proof.
  induction l as [|y l IH]; [done|]. cbn [unique In].
  rewrite List.filter_In, IH.
  destruct (Z.eqb_spec x y) as [->|Hne]; [tauto|].
  split; [tauto|]. intros [?|?]; [by left|]. right. done.
Qed.

Lemma unique_NoDup (l : list Z) : List.NoDup (unique l).
Proof.
  induction l as [|y l IH]; [constructor|]. cbn [unique]. constructor.
  - rewrite List.filter_In. intros [_ Hy]. by rewrite Z.eqb_refl in Hy.
  - by apply List.NoDup_filter.
Qed.

Lemma flat_map_filter_absent {X} (key : X -> Z) (x : X) (l : list X) (cs : list Z) :
  ~ In (key x) cs ->
  flat_map (fun c => List.filter (fun y => (key y =? c)%Z) (x :: l)) cs
  = flat_map (fun c => List.filter (fun y => (key y =? c)%Z) l) cs.
Proof.
  induction cs as [|c cs IH]; intros Hout; [done|]. cbn [flat_map List.filter].
  destruct (Z.eqb_spec (key x) c) as [Heq|_]; [exfalso; apply Hout; by left|].
  f_equal. apply IH. intros ?. apply Hout. by right.
Qed.

(** Rows counted conversation by conversation add up to the table. *)
Lemma count_by_key {X} (key : X -> Z) (l : list X) (cs : list Z) :
  List.NoDup cs -> (forall x, In x l -> In (key x) cs) ->
  length (flat_map (fun c => List.filter (fun x => (key x =? c)%Z) l) cs) = length l.
Proof.
  intros Hnd. induction l as [|x l IH]; intros Hin.
  - clear Hnd Hin. induction cs as [|c cs IHc]; [done|]. exact IHc.
  - cbn [length]. rewrite <- (IH (fun y Hy => Hin y (or_intror Hy))).
    assert (Hx : In (key x) cs) by (apply Hin; by left).
    clear IH Hin. induction cs as [|c cs IHc]; [done|].
    inversion_clear Hnd as [|? ? Hc Hnd']. cbn [flat_map]. rewrite !length_app.
    destruct (Z.eqb_spec (key x) c) as [Heq|Hne].
    + rewrite flat_map_filter_absent by (by rewrite Heq).
      cbn [List.filter]. rewrite <- Heq, Z.eqb_refl. cbn [length]. lia.
    + destruct Hx as [?|Hx]; [done|]. rewrite (IHc Hnd' Hx).
      cbn [List.filter]. destruct (Z.eqb_spec (key x) c) as [?|_]; [done|]. lia.
Qed.

Section table_facts.
Context `{Tokenizer} `{LanguageModel} `{Glove} `{Labels R}.
Implicit Types (toks : list Z) (W : nat) (tdf : list (token_row R)) (cs : list Z).

Lemma conversation_step_columns toks W :
  2 ≤ W -> (Z.of_nat W <= sys_maxsize)%Z -> toks <> [] ->
  conversation_step (Z.of_nat W) toks = Ok (conversation_columns W toks).
Proof.
  intros HW Hmax Htoks. destruct toks as [|t [|t' toks]]; [done| |].
  - rewrite conversation_step_one by lia. reflexivity.
  - apply (conversation_step_spec (t :: t' :: toks) W HW Hmax). cbn [length]. lia.
Qed.

(** Each of the four columns has one entry per token. *)
Lemma length_conversation_columns toks W :
  toks <> [] ->
  let cols := conversation_columns W toks in
  length cols.1.1.1 = length toks /\ length cols.1.1.2 = length toks
  /\ length cols.1.2 = length toks /\ length cols.2 = length toks.
Proof.
  intros Htoks. assert (1 ≤ length toks) by (destruct toks; [done|cbn [length]; lia]).
  unfold conversation_columns, scored. cbn [fst snd length].
  rewrite !length_app, !length_map, length_zip_with, length_map, !length_gathered,
    length_drop.
  cbn [length]. lia.
Qed.

Lemma conversation_loop_columns W tdf cs :
  2 ≤ W -> (Z.of_nat W <= sys_maxsize)%Z ->
  Forall (fun c => conversation_tokens tdf c <> []) cs ->
  conversation_loop (Z.of_nat W) tdf cs
  = Ok (map (fun c => (conversation_columns W (conversation_tokens tdf c)).1.1.1) cs,
        flat_map (fun c => (conversation_columns W (conversation_tokens tdf c)).1.1.2) cs,
        flat_map (fun c => (conversation_columns W (conversation_tokens tdf c)).1.2) cs,
        flat_map (fun c => (conversation_columns W (conversation_tokens tdf c)).2) cs).
Proof.
  intros HW Hmax. induction 1 as [|c cs Hc _ IH]; [done|].
  cbn [conversation_loop].
  change (map token_id (List.filter _ tdf)) with (conversation_tokens tdf c).
  rewrite (conversation_step_columns _ W HW Hmax Hc), bind_Ok.
  destruct (conversation_columns W (conversation_tokens tdf c)) as [[[e w] p] t] eqn:Hcols.
  rewrite IH, bind_Ok. cbn [map flat_map]. rewrite Hcols. done.
Qed.

(** Every conversation named in the table has a token in it. *)
Lemma conversations_have_tokens tdf :
  Forall (fun c => conversation_tokens tdf c <> [])
         (unique (map (fun r => conversation_id (label r)) tdf)).
Proof.
  apply Forall_forall. intros c Hc. apply list_elem_of_In, unique_In, in_map_iff in Hc.
  destruct Hc as (r & <- & Hr). unfold conversation_tokens.
  intros Hnil. apply map_eq_nil in Hnil.
  assert (Hin : In r (List.filter
                        (fun r' => (conversation_id (label r') =? conversation_id (label r))%Z)
                        tdf)).
  { apply List.filter_In. split; [done|apply Z.eqb_refl]. }
  by rewrite Hnil in Hin.
Qed.

(** The columns, laid conversation after conversation, are as long as the
    table. *)
Lemma length_columns_by_conversation {Y} W tdf
    (col : list Z -> list Y) :
  (forall toks, toks <> [] -> length (col toks) = length toks) ->
  length (flat_map (fun c => col (conversation_tokens tdf c))
                   (unique (map (fun r => conversation_id (label r)) tdf)))
  = length tdf.
Proof.
  intros Hcol.
  rewrite <- (count_by_key (fun r => conversation_id (label r)) tdf
                (unique (map (fun r => conversation_id (label r)) tdf))).
  - pose proof (conversations_have_tokens tdf) as Hall.
    induction Hall as [|c cs Hc _ IH]; [done|].
    cbn [flat_map]. rewrite !length_app, IH. f_equal.
    rewrite (Hcol _ Hc). unfold conversation_tokens. by rewrite length_map.
  - apply unique_NoDup.
  - intros r Hr. apply unique_In, in_map_iff. by exists r.
Qed.

(** The table built from five columns of one length gives each column
    back. *)
Lemma output_rows_columns (a : list (token_row R)) : forall (b : list (embedding Emb))
    (c : list (option string)) (d e : list (option Prob)),
  length b = length a -> length c = length a -> length d = length a ->
  length e = length a ->
  let rows := map (fun '(r, e, w, p, t) => OutputRow r e w p t)
                  (zip (zip (zip (zip a b) c) d) e) in
  map row rows = a /\ map embeddings rows = b /\ map top1_pred rows = c
  /\ map top1_pred_prob rows = d /\ map true_pred_prob rows = e.
Proof.
  induction a as [|x a IH]; intros [|y b] [|z c] [|u d] [|v e] Hb Hc Hd He;
    try discriminate; [done|].
  cbn [length] in *.
  destruct (IH b c d e ltac:(lia) ltac:(lia) ltac:(lia) ltac:(lia))
    as (Ea & Eb & Ec & Ed & Ee).
  cbn. cbn in Ea, Eb, Ec, Ed, Ee. by rewrite Ea, Eb, Ec, Ed, Ee.
Qed.

End table_facts.

Section generate_facts.
Context `{Tokenizer} `{LanguageModel} `{Glove} `{Labels R}.

(** What [generate_embeddings_with_context] does after tokenizing, for a
    non-empty token table and a context length of at least two. *)
Lemma generate_after_tokenize (W : nat) (tdf : list (token_row R)) :
  2 ≤ W -> (Z.of_nat W <= sys_maxsize)%Z -> tdf <> [] ->
  ('(final_embeddings, final_top1_word, final_top1_prob, final_true_y_prob) ←
     conversation_loop (Z.of_nat W) tdf
       (unique (map (fun r => conversation_id (label r)) tdf));
   all_embeddings ← np_concatenate final_embeddings;
   df1 ← set_column tdf all_embeddings;
   df2 ← set_column df1 final_top1_word;
   df3 ← set_column df2 final_top1_prob;
   set_column df3 final_true_y_prob)
  = Ok (zip (zip (zip (zip tdf (table_column W tdf (fun x => x.1.1.1)))
                      (table_column W tdf (fun x => x.1.1.2)))
                 (table_column W tdf (fun x => x.1.2)))
            (table_column W tdf (fun x => x.2)))
  /\ length (table_column W tdf (fun x => x.1.1.1)) = length tdf
  /\ length (table_column W tdf (fun x => x.1.1.2)) = length tdf
  /\ length (table_column W tdf (fun x => x.1.2)) = length tdf
  /\ length (table_column W tdf (fun x => x.2)) = length tdf.
Proof.
  intros HW Hmax Htdf.
  assert (Hlen : forall {Y} (f : _ -> list Y),
            (forall toks, toks <> [] -> length (f (conversation_columns W toks)) = length toks) ->
            length (table_column W tdf f) = length tdf).
  { intros Y f Hf.
    apply (length_columns_by_conversation W tdf (fun toks => f (conversation_columns W toks))).
    exact Hf. }
  assert (L1 : length (table_column W tdf (fun x => x.1.1.1)) = length tdf)
    by (apply Hlen; intros toks Ht; apply (length_conversation_columns toks W Ht)).
  assert (L2 : length (table_column W tdf (fun x => x.1.1.2)) = length tdf)
    by (apply Hlen; intros toks Ht; apply (length_conversation_columns toks W Ht)).
  assert (L3 : length (table_column W tdf (fun x => x.1.2)) = length tdf)
    by (apply Hlen; intros toks Ht; apply (length_conversation_columns toks W Ht)).
  assert (L4 : length (table_column W tdf (fun x => x.2)) = length tdf)
    by (apply Hlen; intros toks Ht; apply (length_conversation_columns toks W Ht)).
  split; [|done].
  assert (Hloop :
    conversation_loop (Z.of_nat W) tdf (unique (map (fun r => conversation_id (label r)) tdf))
    = Ok (map (fun c => (conversation_columns W (conversation_tokens tdf c)).1.1.1)
              (unique (map (fun r => conversation_id (label r)) tdf)),
          table_column W tdf (fun x => x.1.1.2),
          table_column W tdf (fun x => x.1.2),
          table_column W tdf (fun x => x.2)))
    by exact (conversation_loop_columns W tdf _ HW Hmax (conversations_have_tokens tdf)).
  rewrite Hloop, bind_Ok.
  assert (Hcat : np_concatenate
                   (map (fun c => (conversation_columns W (conversation_tokens tdf c)).1.1.1)
                        (unique (map (fun r => conversation_id (label r)) tdf)))
                 = Ok (table_column W tdf (fun x => x.1.1.1))).
  { unfold table_column. rewrite flat_map_concat_map. unfold np_concatenate.
    destruct tdf as [|r tdf']; [done|]. done. }
  rewrite Hcat, bind_Ok.
  unfold set_column.
  rewrite L1, Nat.eqb_refl, bind_Ok.
  rewrite !length_zip_with, L1, L2, Nat.min_id, Nat.eqb_refl, bind_Ok.
  rewrite !length_zip_with, L1, L2, L3, !Nat.min_id, Nat.eqb_refl, bind_Ok.
  rewrite !length_zip_with, L1, L2, L3, L4, !Nat.min_id, Nat.eqb_refl.
  done.
Qed.

End generate_facts.

Lemma bind_inr {A B} (a : A) (k : A -> result B) : (inr a ≫= k) = k a.
Proof. reflexivity. Qed.

(** The steps of [embeddings_table], regrouped: tokenize, fill the four
    columns, build the rows. *)
Lemma embeddings_table_regrouped `{Tokenizer} `{LanguageModel} `{Glove} `{Labels R}
    (args : Args.t) (df : list R) :
  embeddings_table args df
  = (tdf ← tokenize_and_explode args df;
     df4 ← ('(final_embeddings, final_top1_word, final_top1_prob, final_true_y_prob) ←
              conversation_loop (Args.context_length args) tdf
                (unique (map (fun r => conversation_id (label r)) tdf));
            all_embeddings ← np_concatenate final_embeddings;
            df1 ← set_column tdf all_embeddings;
            df2 ← set_column df1 final_top1_word;
            df3 ← set_column df2 final_top1_prob;
            set_column df3 final_true_y_prob);
     Ok (map (fun '(r, e, w, p, t) => OutputRow r e w p t) df4)).
Proof.
  unfold embeddings_table.
  destruct (tokenize_and_explode args df) as [e|tdf]; [reflexivity|].
  rewrite !bind_inr.
  destruct (conversation_loop _ tdf _) as [e|[[[fe fw] fp] ft]]; [reflexivity|].
  rewrite !bind_inr.
  destruct (np_concatenate fe) as [e|all]; [reflexivity|]. rewrite !bind_inr.
  destruct (set_column tdf all) as [e|df1]; [reflexivity|]. rewrite !bind_inr.
  destruct (set_column df1 fw) as [e|df2]; [reflexivity|]. rewrite !bind_inr.
  destruct (set_column df2 fp) as [e|df3]; [reflexivity|]. rewrite !bind_inr.
  reflexivity.
Qed.

Lemma embeddings_table_columns `{Tokenizer} `{LanguageModel} `{Glove} `{Labels R}
    (args : Args.t) (df : list R) (W : nat) :
  Args.embedding_type args = "gpt2" \/ Args.embedding_type args = "bert" ->
  Args.context_length args = Z.of_nat W -> 2 ≤ W -> (Z.of_nat W <= sys_maxsize)%Z ->
  Forall (fun r => tokenize (word r) <> []) df ->
  flat_map (rows_of_word args) df <> [] ->
  let tdf := flat_map (rows_of_word args) df in
  exists rows,
    embeddings_table args df = Ok rows
    /\ map row rows = tdf
    /\ map embeddings rows = table_column W tdf (fun x => x.1.1.1)
    /\ map top1_pred rows = table_column W tdf (fun x => x.1.1.2)
    /\ map top1_pred_prob rows = table_column W tdf (fun x => x.1.2)
    /\ map true_pred_prob rows = table_column W tdf (fun x => x.2).
Proof.
  intros Htype Hctx HW Hmax Hdf Htdf tdf.
  destruct (generate_after_tokenize W tdf HW Hmax Htdf) as (Hsteps & L1 & L2 & L3 & L4).
  eexists. split.
  - rewrite embeddings_table_regrouped.
    rewrite (tokenize_and_explode_spec args df Htype Hdf), bind_Ok, Hctx.
    fold tdf. rewrite Hsteps, !bind_Ok. reflexivity.
  - by apply output_rows_columns.
Qed.

(** X8.  The layout of the table that [generate_embeddings_with_context]
    builds and hands to [save_pickle].  Under "gpt2" or "bert", a context
    length between 2 and [sys.maxsize], and words that all have a token, not
    all of them punctuation (a non-empty token table), the table has one
    output row per token row, the token rows unchanged and in order.  The four new columns are filled conversation after conversation,
    in the order in which the conversations first appear in the table, each
    conversation giving one entry per token of it.  When the function
    returns, this table is what it returns. *)
Theorem output_table_layout `{Tokenizer} `{LanguageModel} `{Glove} `{Labels R}
    (args : Args.t) (df : list R) (W : nat) :
  Args.embedding_type args = "gpt2" \/ Args.embedding_type args = "bert" ->
  Args.context_length args = Z.of_nat W -> 2 ≤ W -> (Z.of_nat W <= sys_maxsize)%Z ->
  Forall (fun r => tokenize (word r) <> []) df ->
  flat_map (rows_of_word args) df <> [] ->
  let tdf := flat_map (rows_of_word args) df in
  exists rows,
    embeddings_table args df = Ok rows
    /\ map row rows = tdf
    /\ map embeddings rows = table_column W tdf (fun x => x.1.1.1)
    /\ map top1_pred rows = table_column W tdf (fun x => x.1.1.2)
    /\ map top1_pred_prob rows = table_column W tdf (fun x => x.1.2)
    /\ map true_pred_prob rows = table_column W tdf (fun x => x.2)
    /\ forall output_file returned,
         generate_embeddings_with_context args output_file df = Ok returned ->
         returned = rows.
Proof.
  intros Htype Hctx HW Hmax Hdf Htdf tdf.
  destruct (embeddings_table_columns args df W Htype Hctx HW Hmax Hdf Htdf)
    as (rows & Hrows & Hcols).
  exists rows. split; [exact Hrows|]. repeat (split; [apply Hcols|]).
  intros output_file returned. unfold generate_embeddings_with_context.
  rewrite Hrows, bind_Ok. destruct output_file; [|discriminate].
  by intros [= <-].
Qed.

Lemma output_table_layout_witness :
  exists rows,
    @embeddings_table Toy.by_character Toy.echo Toy.glove _ Toy.labels
      (Toy.args "gpt2" "625" 2 true) [("ab", 1%Z); ("c", 2%Z); ("d", 1%Z)]
    = Ok rows
    /\ map (fun r => token (row r)) rows = ["a"; "b"; "c"; "d"]
    /\ map embeddings rows
       = [nan_row; hidden ([97; 98]%Z, 0); hidden ([98; 100]%Z, 0); nan_row].
Proof.
  destruct (@output_table_layout Toy.by_character Toy.echo Toy.glove _ Toy.labels
              (Toy.args "gpt2" "625" 2 true)
              [("ab", 1%Z); ("c", 2%Z); ("d", 1%Z)] 2)
    as (rows & Hrows & Hrow & Hemb & _);
    [by left|reflexivity|lia|by vm_compute|by repeat constructor|discriminate|].
  exists rows. split; [exact Hrows|]. split.
  - rewrite <- (map_map row token), Hrow. reflexivity.
  - rewrite Hemb. reflexivity.
Defined.

(** X9.  An empty token table (no word, or only punctuation) makes
    [generate_embeddings_with_context] fail with ValueError, whatever the
    context length: there is no array to concatenate. *)
Theorem empty_token_table_fails `{Tokenizer} `{LanguageModel} `{Glove} `{Labels R}
    (args : Args.t) (output_file : option string) (df : list R) :
  Args.embedding_type args = "gpt2" \/ Args.embedding_type args = "bert" ->
  Forall (fun r => tokenize (word r) <> []) df ->
  flat_map (rows_of_word args) df = [] ->
  generate_embeddings_with_context args output_file df = raise ValueError.
Proof.
  intros Htype Hdf Hnil. unfold generate_embeddings_with_context, embeddings_table.
  rewrite (tokenize_and_explode_spec args df Htype Hdf), bind_Ok, Hnil. reflexivity.
Qed.

Lemma empty_token_table_fails_witness :
  @generate_embeddings_with_context Toy.by_character Toy.echo Toy.glove _ Toy.labels
    (Toy.args "gpt2" "625" 2 true) (Some "out") [("?", 1%Z); ("!", 1%Z)]
  = raise ValueError.
Proof.
  apply (@empty_token_table_fails Toy.by_character Toy.echo Toy.glove _ Toy.labels);
    [by left|by repeat constructor|reflexivity].
Defined.

Lemma generate_needs_output_file `{Tokenizer} `{LanguageModel} `{Glove} `{Labels R}
    (args : Args.t) (df : list R) (rows : list (output_row R)) :
  generate_embeddings_with_context args None df <> Ok rows.
Proof.
  unfold generate_embeddings_with_context.
  destruct (embeddings_table args df) as [e|table]; [discriminate|].
  rewrite bind_inr. discriminate.
Qed.

(** X10.  Without an output file, that is without a conversation id,
    [generate_embeddings_with_context] never returns a table: when all the
    work is done (which takes a context length that is at most
    [sys.maxsize]) it fails with AttributeError on the missing attribute. *)
Theorem generate_without_output_file `{Tokenizer} `{LanguageModel} `{Glove} `{Labels R}
    (args : Args.t) (df : list R) (W : nat) :
  Args.embedding_type args = "gpt2" \/ Args.embedding_type args = "bert" ->
  Args.context_length args = Z.of_nat W -> 2 ≤ W ->
  Forall (fun r => tokenize (word r) <> []) df ->
  flat_map (rows_of_word args) df <> [] ->
  ((Z.of_nat W <= sys_maxsize)%Z ->
   generate_embeddings_with_context args None df = raise AttributeError)
  /\ forall args' df' rows, generate_embeddings_with_context args' None df' <> Ok rows.
Proof.
  intros Htype Hctx HW Hdf Htdf. split.
  - intros Hmax.
    destruct (embeddings_table_columns args df W Htype Hctx HW Hmax Hdf Htdf)
      as (rows & Hrows & _).
    unfold generate_embeddings_with_context. by rewrite Hrows.
  - intros args' df' rows. apply generate_needs_output_file.
Qed.

Lemma generate_without_output_file_witness :
  @generate_embeddings_with_context Toy.by_character Toy.echo Toy.glove _ Toy.labels
    (Toy.args "gpt2" "625" 2 true) None [("ab", 1%Z); ("c", 2%Z)]
  = raise AttributeError.
Proof.
  apply (@generate_without_output_file Toy.by_character Toy.echo Toy.glove _ Toy.labels
           (Toy.args "gpt2" "625" 2 true) [("ab", 1%Z); ("c", 2%Z)] 2);
    [by left|reflexivity|lia|by repeat constructor|discriminate|by vm_compute].
Defined.

(** ** select_tokenizer_and_model, beyond the claims *)

Section select_facts.
Context `{Tokenizer}.

(** The five embedding types [select_tokenizer_and_model] knows. *)
Lemma select_cases (args : Args.t) :
  (Args.embedding_type args = "glove50" /\ select_tokenizer_and_model args = Ok (None, args))
  \/ ((Args.embedding_type args = "gpt2" \/ Args.embedding_type args = "roberta"
       \/ Args.embedding_type args = "bert" \/ Args.embedding_type args = "bart")
      /\ exists classes,
           select_tokenizer_and_model args
           = Ok (Some classes,
                 if Args.history args && (Args.context_length args <=? 0)%Z
                 then Args.set_context_length args max_len_single_sentence
                 else args))
  \/ (Args.embedding_type args <> "gpt2" /\ Args.embedding_type args <> "roberta"
      /\ Args.embedding_type args <> "bert" /\ Args.embedding_type args <> "bart"
      /\ Args.embedding_type args <> "glove50"
      /\ select_tokenizer_and_model args = raise (SystemExit 1)).
Proof.
  unfold select_tokenizer_and_model.
  assert (Hafter : forall classes : selection,
            (if Args.history args && (Args.context_length args <=? 0)%Z
             then
               let args0 := Args.set_context_length args max_len_single_sentence in
               _ ← assert (Args.context_length args0 <=? max_len_single_sentence)%Z;
               Ok (Some classes, args0)
             else Ok (Some classes, args))
            = Ok (Some classes,
                  if Args.history args && (Args.context_length args <=? 0)%Z
                  then Args.set_context_length args max_len_single_sentence
                  else args)).
  { intros classes. destruct (Args.history args && (Args.context_length args <=? 0)%Z);
      [|done].
    cbv zeta. cbn [Args.set_context_length Args.context_length].
    by rewrite Z.leb_refl. }
  destruct (String.eqb_spec (Args.embedding_type args) "gpt2") as [?|?].
  { right; left. split; [tauto|]. rewrite bind_Ok. eexists. apply Hafter. }
  destruct (String.eqb_spec (Args.embedding_type args) "roberta") as [?|?].
  { right; left. split; [tauto|]. rewrite bind_Ok. eexists. apply Hafter. }
  destruct (String.eqb_spec (Args.embedding_type args) "bert") as [?|?].
  { right; left. split; [tauto|]. rewrite bind_Ok. eexists. apply Hafter. }
  destruct (String.eqb_spec (Args.embedding_type args) "bart") as [?|?].
  { right; left. split; [tauto|]. rewrite bind_Ok. eexists. apply Hafter. }
  destruct (String.eqb_spec (Args.embedding_type args) "glove50") as [?|?].
  { left. by split. }
  right; right. done.
Qed.

End select_facts.

(** X11.  [select_tokenizer_and_model] exits with status 1 exactly when the
    embedding type is none of "gpt2", "roberta", "bert", "bart", "glove50",
    and when it returns it has selected no model exactly for "glove50". *)
Theorem select_exits_iff_unknown_type `{Tokenizer} (args : Args.t) :
  (select_tokenizer_and_model args = raise (SystemExit 1)
   <-> ~ Args.embedding_type args ∈ ["gpt2"; "roberta"; "bert"; "bart"; "glove50"])
  /\ (forall classes args',
        select_tokenizer_and_model args = Ok (classes, args') ->
        (classes = None <-> Args.embedding_type args = "glove50")).
Proof.
  destruct (select_cases args)
    as [ [Hg Hsel] | [ [Hm [classes Hsel] ] | (H1 & H2 & H3 & H4 & H5 & Hsel) ] ];
    rewrite Hsel.
  - split.
    + split; [discriminate|]. intros Hno. exfalso. apply Hno. rewrite Hg. set_solver.
    + intros ? ? [= <- <-]. done.
  - split.
    + split; [discriminate|]. intros Hno. exfalso. apply Hno.
      destruct Hm as [-> | [-> | [-> | ->] ] ]; set_solver.
    + intros ? ? [= <- <-]. split; [discriminate|].
      intros Hg. rewrite Hg in Hm. destruct Hm as [?|[?|[?|?]]]; discriminate.
  - split.
    + split; [|done]. intros _ Hin.
      repeat (apply elem_of_cons in Hin as [?|Hin]; [done|]).
      by apply elem_of_nil in Hin.
    + discriminate.
Qed.

(** X12.  The context length after [select_tokenizer_and_model] has selected
    a model.  In history mode a context length of zero or less is replaced
    by the tokenizer's [max_len_single_sentence]; in every other case the
    arguments come back as given, also when the context length exceeds that
    maximum: the assertion on it is never the reason of a failure. *)
Theorem select_context_length `{Tokenizer} (args : Args.t) (classes : selection)
    (args' : Args.t) :
  select_tokenizer_and_model args = Ok (Some classes, args') ->
  (Args.history args = true -> (Args.context_length args ≤ 0)%Z ->
     args' = Args.set_context_length args max_len_single_sentence)
  /\ (Args.history args = false \/ (0 < Args.context_length args)%Z -> args' = args)
  /\ (forall a, select_tokenizer_and_model a <> raise AssertionError).
Proof.
  intros Hsel. split; [|split].
  - intros Hh Hc.
    destruct (select_cases args) as [ [_ Hs] | [ [_ [c Hs] ] | (_ & _ & _ & _ & _ & Hs) ] ];
      rewrite Hs in Hsel; try discriminate.
    injection Hsel as _ <-. rewrite Hh.
    by destruct (Z.leb_spec (Args.context_length args) 0) as [_|?]; [|lia].
  - intros Hcase.
    destruct (select_cases args) as [ [_ Hs] | [ [_ [c Hs] ] | (_ & _ & _ & _ & _ & Hs) ] ];
      rewrite Hs in Hsel; try discriminate.
    injection Hsel as _ <-.
    destruct Hcase as [-> | Hpos]; [done|].
    destruct (Z.leb_spec (Args.context_length args) 0) as [?|_]; [lia|].
    by rewrite andb_false_r.
  - intros a.
    destruct (select_cases a) as [ [_ Hs] | [ [_ [c Hs] ] | (_ & _ & _ & _ & _ & Hs) ] ];
      rewrite Hs; discriminate.
Qed.

Lemma select_context_length_witness :
  @select_tokenizer_and_model Toy.whole_word (Toy.args "gpt2" "625" 0 true)
  = Ok (Some (Selection "GPT2Tokenizer" "GPT2LMHeadModel" "gpt2-xl"),
        Toy.args "gpt2" "625" 1024 true)
  /\ Toy.args "gpt2" "625" 1024 true
     = Args.set_context_length (Toy.args "gpt2" "625" 0 true)
         (@max_len_single_sentence Toy.whole_word).
Proof.
  split; [reflexivity|].
  apply (@select_context_length Toy.whole_word (Toy.args "gpt2" "625" 0 true)
           (Selection "GPT2Tokenizer" "GPT2LMHeadModel" "gpt2-xl")
           (Toy.args "gpt2" "625" 1024 true) eq_refl); [reflexivity|simpl; lia].
Defined.

(** ** setup_environ, load_pickle and main, beyond the claims *)

Lemma index_in_range {A} (l : list A) (i : Z) (x : A) :
  (0 ≤ i)%Z -> l !! Z.to_nat i = Some x -> Py.index l i = Ok x.
Proof.
  intros Hi Hx. pose proof (lookup_lt_Some _ _ _ Hx) as Hlt. unfold Py.index.
  destruct (Z.leb_spec 0 i) as [_|?]; [|lia].
  destruct (Z.ltb_spec i (Z.of_nat (length l))) as [_|?]; [|lia].
  cbn [andb]. by rewrite Hx.
Qed.

Lemma index_from_the_end {A} (l : list A) (i : Z) (x : A) :
  (i < 0)%Z -> (- Z.of_nat (length l) ≤ i)%Z ->
  l !! Z.to_nat (Z.of_nat (length l) + i) = Some x -> Py.index l i = Ok x.
Proof.
  intros Hi Hlo Hx. unfold Py.index.
  destruct (Z.leb_spec 0 i) as [?|_]; [lia|]. cbn [andb].
  destruct (Z.leb_spec (- Z.of_nat (length l)) i) as [_|?]; [|lia].
  destruct (Z.ltb_spec i 0) as [_|?]; [|lia].
  cbn [andb]. by rewrite Hx.
Qed.

Lemma index_out_of_range {A} (l : list A) (i : Z) :
  (Z.of_nat (length l) ≤ i)%Z \/ (i < - Z.of_nat (length l))%Z ->
  Py.index l i = raise IndexError.
Proof.
  intros Hi. unfold Py.index.
  destruct (Z.leb_spec 0 i) as [?|?]; destruct (Z.ltb_spec i (Z.of_nat (length l)));
    cbn [andb]; try lia;
    destruct (Z.leb_spec (- Z.of_nat (length l)) i); destruct (Z.ltb_spec i 0);
    cbn [andb]; try lia; done.
Qed.

Section setup_more.
Context `{Host R}.

(** [setup_environ] once the listing has the count it insists on and the
    model, if there are several GPUs, exists. *)
Lemma setup_environ_after_checks (args : Args.t) (has_model : bool) (names : list string) :
  listdir (path_join (path_join getcwd "data") (Args.subject args)) = Ok names ->
  length names = expected_conversations (Args.subject args) ->
  (cuda_device_count ≤ 1)%Z \/ has_model = true ->
  setup_environ args has_model
  = if (Args.conversation_id args =? 0)%Z
    then Ok (Environ (if cuda_is_available then "cuda:0" else "cpu") (labels_pickle args)
                     (path_join (path_join getcwd "data") (Args.subject args))
                     (sorted names) cuda_device_count None None)
    else
      output_file_name ← Py.index (sorted names) (Args.conversation_id args - 1)%Z;
      Ok (Environ (if cuda_is_available then "cuda:0" else "cpu") (labels_pickle args)
                  (path_join (path_join getcwd "data") (Args.subject args))
                  (sorted names) cuda_device_count
                  (Some (embeddings_dir args))
                  (Some (path_join (embeddings_dir args) output_file_name))).
Proof.
  intros Hls Hlen Hgpu. unfold setup_environ. rewrite Hls, bind_Ok, length_sorted.
  unfold expected_conversations in Hlen.
  assert (Hassert :
    (if String.eqb (Args.subject args) "625"
     then assert (length names =? 54) else assert (length names =? 79)) = Ok tt).
  { destruct (String.eqb (Args.subject args) "625"); rewrite Hlen; done. }
  rewrite Hassert, bind_Ok.
  assert (Hmodel : (1 <? cuda_device_count)%Z && negb has_model = false).
  { destruct Hgpu as [Hg| ->]; [|apply andb_false_r].
    by destruct (Z.ltb_spec 1 cuda_device_count) as [?|_]; [lia|]. }
  rewrite Hmodel, bind_Ok. reflexivity.
Qed.

End setup_more.

Lemma run_bind_inr {A B} (c : call) (a : A) (k : A -> run B) :
  (called c (inr a) ≫= k) = let '(calls, r) := k a in (c :: calls, r).
Proof. reflexivity. Qed.

Section main_facts.
Context `{Tokenizer} `{LanguageModel} `{Glove} `{Labels R} `{!Host R}.

(** [select_tokenizer_and_model] changes nothing but the context length. *)
Lemma select_keeps (args args' : Args.t) (classes : option selection) :
  select_tokenizer_and_model args = Ok (classes, args') ->
  Args.history args' = Args.history args
  /\ Args.embedding_type args' = Args.embedding_type args
  /\ Args.subject args' = Args.subject args
  /\ Args.conversation_id args' = Args.conversation_id args.
Proof.
  intros Hsel.
  destruct (select_cases args) as [ [_ Hs] | [ [_ [c Hs] ] | (_ & _ & _ & _ & _ & Hs) ] ];
    rewrite Hs in Hsel; try discriminate; injection Hsel as _ <-; [done|].
  by destruct (Args.history args && (Args.context_length args <=? 0)%Z).
Qed.

(** Every way [main] can go. *)
Lemma main_cases (args : Args.t) :
  (exists e, select_tokenizer_and_model args = raise e
             /\ main args = ([CallSelectTokenizerAndModel], raise e))
  \/ exists classes args',
       select_tokenizer_and_model args = Ok (classes, args')
       /\ ((exists e, setup_environ args' (bool_decide (is_Some classes)) = raise e
                      /\ main args = ([CallSelectTokenizerAndModel; CallSetupEnviron],
                                      raise e))
           \/ exists env,
                setup_environ args' (bool_decide (is_Some classes)) = Ok env
                /\ ((exists e, load_pickle (pickle_name env) args' = raise e
                               /\ main args = ([CallSelectTokenizerAndModel; CallSetupEnviron;
                                                CallLoadPickle], raise e))
                    \/ exists df,
                         load_pickle (pickle_name env) args' = Ok df
                         /\ main args
                            = if Args.history args' then
                                if String.eqb (Args.embedding_type args') "gpt2" then
                                  ([CallSelectTokenizerAndModel; CallSetupEnviron;
                                    CallLoadPickle; CallGenerateEmbeddingsWithContext],
                                   _ ← generate_embeddings_with_context args'
                                         (output_file env) df;
                                   Ok tt)
                                else
                                  ([CallSelectTokenizerAndModel; CallSetupEnviron;
                                    CallLoadPickle; PrintTodo], Ok tt)
                              else if String.eqb (Args.embedding_type args') "glove50" then
                                ([CallSelectTokenizerAndModel; CallSetupEnviron;
                                  CallLoadPickle; CallGenWord2vecEmbeddings],
                                 _ ← gen_word2vec_embeddings (output_file env) df; Ok tt)
                              else
                                ([CallSelectTokenizerAndModel; CallSetupEnviron;
                                  CallLoadPickle; CallGenerateEmbeddings],
                                 raise TypeError))).
Proof.
  unfold main.
  destruct (select_tokenizer_and_model args) as [e|[classes args']];
    [left; exists e; split; reflexivity|].
  right. exists classes, args'. split; [done|].
  rewrite run_bind_inr. cbv beta iota.
  destruct (setup_environ args' _) as [e|env]; [left; exists e; split; reflexivity|].
  right. exists env. split; [done|].
  rewrite run_bind_inr.
  destruct (load_pickle (pickle_name env) args') as [e|df];
    [left; exists e; split; reflexivity|].
  right. exists df. split; [done|].
  rewrite run_bind_inr.
  destruct (Args.history args'), (String.eqb (Args.embedding_type args') "gpt2"),
    (String.eqb (Args.embedding_type args') "glove50"); try reflexivity.
  all: try (destruct (generate_embeddings_with_context args' (output_file env) df);
            reflexivity).
  all: destruct (gen_word2vec_embeddings (output_file env) df); reflexivity.
Qed.

(** Without a conversation id [setup_environ] sets no output file. *)
Lemma setup_environ_no_output_file (args : Args.t) (has_model : bool) (env : environ) :
  setup_environ args has_model = Ok env -> Args.conversation_id args = 0%Z ->
  output_file env = None.
Proof.
  unfold setup_environ. intros Hsetup Hid. rewrite Hid in Hsetup. cbn [Z.eqb] in Hsetup.
  destruct (listdir _) as [e|names]; [discriminate|]. rewrite bind_inr in Hsetup.
  match type of Hsetup with (?m ≫= _) = _ => destruct m as [e|[]] end; [discriminate|].
  rewrite bind_inr in Hsetup.
  match type of Hsetup with (?m ≫= _) = _ => destruct m as [e|[]] end; [discriminate|].
  rewrite bind_inr in Hsetup. by injection Hsetup as <-.
Qed.

End main_facts.

(** X13.  The conversation id is a 1-based index into the sorted listing.
    Once the checks of [setup_environ] pass, id 0 sets no output file, and
    an id [k >= 1] within the listing sets the output file to the k-th name
    of the sorted listing, inside the embeddings directory of the run. *)
Theorem conversation_id_picks_output_file `{Host R}
    (args : Args.t) (has_model : bool) (names : list string) :
  listdir (path_join (path_join getcwd "data") (Args.subject args)) = Ok names ->
  length names = expected_conversations (Args.subject args) ->
  (cuda_device_count ≤ 1)%Z \/ has_model = true ->
  (Args.conversation_id args = 0%Z ->
     exists env, setup_environ args has_model = Ok env
                 /\ conversation_list env = sorted names
                 /\ output_dir env = None /\ output_file env = None)
  /\ (forall name,
        (1 ≤ Args.conversation_id args)%Z ->
        sorted names !! Z.to_nat (Args.conversation_id args - 1) = Some name ->
        exists env, setup_environ args has_model = Ok env
                    /\ conversation_list env = sorted names
                    /\ output_dir env = Some (embeddings_dir args)
                    /\ output_file env = Some (path_join (embeddings_dir args) name)).
Proof.
  intros Hls Hlen Hgpu.
  rewrite (setup_environ_after_checks args has_model names Hls Hlen Hgpu).
  split.
  - intros ->. cbn [Z.eqb]. by eexists.
  - intros name Hid Hname.
    destruct (Z.eqb_spec (Args.conversation_id args) 0) as [?|_]; [lia|].
    rewrite (index_in_range _ _ name) by (done || lia). rewrite bind_Ok. by eexists.
Qed.

Lemma conversation_id_picks_output_file_witness :
  exists env,
    @setup_environ _ (Toy.host 54) (Toy.args "gpt2" "625" 2 true) true = Ok env
    /\ output_file env
       = Some "/home/user/results/625/embeddings/gpt2_cnxt_2/conversation".
Proof.
  destruct (@conversation_id_picks_output_file _ (Toy.host 54)
              (Toy.args "gpt2" "625" 2 true) true (replicate 54 "conversation")
              eq_refl eq_refl (or_intror eq_refl)) as [_ Hpos].
  destruct (Hpos "conversation" ltac:(simpl; lia) eq_refl) as (env & Henv & _ & _ & Hfile).
  exists env. split; [exact Henv|]. rewrite Hfile. reflexivity.
Defined.

(** X14.  A conversation id beyond the listing, or at most minus its length,
    makes [setup_environ] fail with IndexError, after the count assertion
    has passed.  A negative id above that bound is not refused: it counts
    from the end of the sorted listing, shifted by one. *)
Theorem conversation_id_out_of_range `{Host R}
    (args : Args.t) (has_model : bool) (names : list string) :
  listdir (path_join (path_join getcwd "data") (Args.subject args)) = Ok names ->
  length names = expected_conversations (Args.subject args) ->
  (cuda_device_count ≤ 1)%Z \/ has_model = true ->
  ((Z.of_nat (length names) < Args.conversation_id args)%Z
   \/ (Args.conversation_id args ≤ - Z.of_nat (length names))%Z ->
   setup_environ args has_model = raise IndexError)
  /\ (forall name,
        (- Z.of_nat (length names) < Args.conversation_id args < 0)%Z ->
        sorted names !! Z.to_nat (Z.of_nat (length names) + Args.conversation_id args - 1)
        = Some name ->
        exists env, setup_environ args has_model = Ok env
                    /\ output_file env = Some (path_join (embeddings_dir args) name)).
Proof.
  intros Hls Hlen Hgpu.
  rewrite (setup_environ_after_checks args has_model names Hls Hlen Hgpu).
  assert (Hn : 54 ≤ length names).
  { rewrite Hlen. unfold expected_conversations.
    destruct (String.eqb (Args.subject args) "625"); lia. }
  split.
  - intros Hid.
    destruct (Z.eqb_spec (Args.conversation_id args) 0) as [?|_]; [lia|].
    rewrite index_out_of_range; [done|]. rewrite length_sorted. lia.
  - intros name Hid Hname.
    destruct (Z.eqb_spec (Args.conversation_id args) 0) as [?|_]; [lia|].
    rewrite (index_from_the_end _ _ name); rewrite ?length_sorted; try lia.
    + rewrite bind_Ok. by eexists.
    + rewrite <- Hname. f_equal. lia.
Qed.

Lemma conversation_id_out_of_range_witness :
  @setup_environ _ (Toy.host 54)
    (Args.Build "bert-large-uncased-whole-word-masking" "gpt2" 2 false false "625" true 55)
    true
  = raise IndexError.
Proof.
  apply (@conversation_id_out_of_range _ (Toy.host 54)
           (Args.Build "bert-large-uncased-whole-word-masking" "gpt2" 2 false false
                       "625" true 55)
           true (replicate 54 "conversation") eq_refl eq_refl (or_intror eq_refl)).
  left. simpl. lia.
Defined.

(** X15.  GloVe on a machine with several GPUs.  For "glove50" no model is
    selected, and with more than one GPU [setup_environ] reaches for the
    model all the same: the run ends there with AttributeError, after the
    count assertion has passed. *)
Theorem glove50_with_several_gpus
    `{Tokenizer} `{LanguageModel} `{Glove} `{Labels R} `{!Host R}
    (args : Args.t) (names : list string) :
  Args.embedding_type args = "glove50" ->
  (1 < cuda_device_count)%Z ->
  listdir (path_join (path_join getcwd "data") (Args.subject args)) = Ok names ->
  length names = expected_conversations (Args.subject args) ->
  setup_environ args false = raise AttributeError
  /\ main args = ([CallSelectTokenizerAndModel; CallSetupEnviron], raise AttributeError).
Proof.
  intros Htype Hgpu Hls Hlen.
  assert (Hsetup : setup_environ args false = raise AttributeError).
  { unfold setup_environ. rewrite Hls, bind_Ok, length_sorted.
    unfold expected_conversations in Hlen.
    assert (Hassert :
      (if String.eqb (Args.subject args) "625"
       then assert (length names =? 54) else assert (length names =? 79)) = Ok tt).
    { destruct (String.eqb (Args.subject args) "625"); rewrite Hlen; done. }
    rewrite Hassert, bind_Ok.
    by destruct (Z.ltb_spec 1 cuda_device_count) as [_|?]; [|lia]. }
  split; [exact Hsetup|].
  destruct (select_cases args) as [ [_ Hs] | [ [Hm _] | (_ & _ & _ & _ & Hno & _) ] ];
    [|rewrite Htype in Hm; destruct Hm as [?|[?|[?|?]]]; discriminate|done].
  unfold main. rewrite Hs, run_bind_Ok. cbv beta iota.
  change (bool_decide (is_Some (@None selection))) with false.
  by rewrite Hsetup, run_bind_raise.
Qed.

Lemma glove50_with_several_gpus_witness :
  @main Toy.whole_word Toy.echo Toy.glove _ Toy.labels
    {| getcwd := "/home/user";
       listdir dir := Ok (replicate 54 "conversation");
       cuda_is_available := true;
       cuda_device_count := 2;
       pickle_load_labels file := Ok [("the", 1%Z)] |}
    (Toy.args "glove50" "625" 0 false)
  = ([CallSelectTokenizerAndModel; CallSetupEnviron], raise AttributeError).
Proof.
  apply (@glove50_with_several_gpus Toy.whole_word Toy.echo Toy.glove _ Toy.labels
           {| getcwd := "/home/user";
              listdir dir := Ok (replicate 54 "conversation");
              cuda_is_available := true;
              cuda_device_count := 2;
              pickle_load_labels file := Ok [("the", 1%Z)] |}
           (Toy.args "glove50" "625" 0 false) (replicate 54 "conversation"));
    [reflexivity|simpl; lia|reflexivity|reflexivity].
Defined.

(** Keeping the rows of one conversation splits the table in two. *)
Lemma filter_conversation `{Labels R} (id : Z) (table : list R) :
  let df := List.filter (fun r => (conversation_id r =? id)%Z) table in
  let others := List.filter (fun r => negb (conversation_id r =? id)%Z) table in
  sublist df table
  /\ table ≡ₚ df ++ others
  /\ Forall (fun r => conversation_id r = id) df
  /\ Forall (fun r => conversation_id r <> id) others.
Proof.
  cbv zeta. split; [|split; [|split]].
  - induction table as [|r table IH]; [constructor|]. cbn [List.filter].
    destruct (conversation_id r =? id)%Z; [by apply sublist_skip|by apply sublist_cons].
  - induction table as [|r table IH]; [done|]. cbn [List.filter].
    destruct (conversation_id r =? id)%Z; cbn [negb app].
    + by constructor.
    + by apply Permutation_cons_app.
  - apply Forall_forall. intros r Hr.
    apply list_elem_of_In, List.filter_In in Hr as [_ Hr]. by apply Z.eqb_eq.
  - apply Forall_forall. intros r Hr.
    apply list_elem_of_In, List.filter_In in Hr as [_ Hr].
    apply negb_true_iff in Hr. by apply Z.eqb_neq.
Qed.

(** X16.  [load_pickle] with conversation id 0 returns the whole table.
    With another id it raises AttributeError on an empty labels table; on a
    table with rows it returns the rows of that conversation, each as often
    as the pickle has it and in the order of the pickle: the rows returned
    are a subsequence of the table, all of that conversation, and the table
    is made of them and of rows of other conversations. *)
Theorem load_pickle_keeps_one_conversation `{Host R} `{Labels R}
    (name : string) (args : Args.t) (table : list R) :
  pickle_load_labels name = Ok table ->
  (Args.conversation_id args = 0%Z -> load_pickle name args = Ok table)
  /\ (Args.conversation_id args <> 0%Z -> table = [] ->
      load_pickle name args = raise AttributeError)
  /\ (Args.conversation_id args <> 0%Z -> table <> [] ->
      exists df others,
        load_pickle name args = Ok df
        /\ sublist df table
        /\ table ≡ₚ df ++ others
        /\ Forall (fun r => conversation_id r = Args.conversation_id args) df
        /\ Forall (fun r => conversation_id r <> Args.conversation_id args) others).
Proof.
  intros Hload. unfold load_pickle. rewrite Hload, bind_Ok. split; [|split].
  - by intros ->.
  - intros Hid ->. by destruct (Z.eqb_spec (Args.conversation_id args) 0).
  - intros Hid Htable.
    destruct (Z.eqb_spec (Args.conversation_id args) 0) as [?|_]; [done|].
    destruct table as [|r table]; [done|].
    eexists _, _. split; [reflexivity|].
    apply (filter_conversation (Args.conversation_id args) (r :: table)).
Qed.

Lemma load_pickle_keeps_one_conversation_witness :
  @load_pickle _ {| getcwd := "/home/user";
                    listdir dir := Ok [];
                    cuda_is_available := false;
                    cuda_device_count := 0;
                    pickle_load_labels file := Ok [("a", 2%Z); ("b", 1%Z); ("c", 2%Z)] |}
    Toy.labels "625_full_labels.pkl"
    (Args.Build "bert-large-uncased-whole-word-masking" "gpt2" 2 false false "625" true 2)
  = Ok [("a", 2%Z); ("c", 2%Z)].
Proof.
  destruct (@load_pickle_keeps_one_conversation _
              {| getcwd := "/home/user";
                 listdir dir := Ok [];
                 cuda_is_available := false;
                 cuda_device_count := 0;
                 pickle_load_labels file := Ok [("a", 2%Z); ("b", 1%Z); ("c", 2%Z)] |}
              Toy.labels "625_full_labels.pkl"
              (Args.Build "bert-large-uncased-whole-word-masking" "gpt2" 2 false false
                          "625" true 2)
              [("a", 2%Z); ("b", 1%Z); ("c", 2%Z)] eq_refl) as (_ & _ & Hid).
  destruct (Hid ltac:(discriminate) ltac:(discriminate)) as (df & others & Hdf & _).
  rewrite Hdf. vm_compute in Hdf. symmetry. exact Hdf.
Defined.

(** [gen_word2vec_embeddings]: a lookup never fails, a missing output file
    always does. *)
Lemma gen_word2vec_embeddings_result `{Glove} `{Labels R}
    (output_file : option string) (df : list R) :
  gen_word2vec_embeddings output_file df
  = match output_file with
    | Some _ => Ok tt
    | None => raise AttributeError
    end.
Proof.
  unfold gen_word2vec_embeddings.
  rewrite (mapE_Ok _ (fun r => (r, glove50 !! word r))).
  - by rewrite bind_Ok.
  - apply Forall_forall. intros r _. by rewrite get_vector_lookup.
Qed.


(** X18.  Outside history mode, with an embedding type other than
    "glove50", a run never ends normally: if it gets as far as
    [generate_embeddings], that call fails with TypeError on its own call
    of [tokenize_and_explode]. *)
Theorem main_without_history_fails
    `{Tokenizer} `{LanguageModel} `{Glove} `{Labels R} `{!Host R} (args : Args.t) :
  Args.history args = false -> Args.embedding_type args <> "glove50" ->
  exists e, (main args).2 = raise e
            /\ (length (main args).1 = 4 ->
                e = TypeError /\ (main args).1 !! 3 = Some CallGenerateEmbeddings).
Proof.
  intros Hh Ht.
  destruct (main_cases args)
    as [ (e & _ & ->) | (classes & args' & Hsel & Hrest) ].
  { exists e. split; [done|]. discriminate. }
  destruct (select_keeps args args' classes Hsel) as (Hh' & Ht' & _ & _).
  destruct Hrest as [ (e & _ & ->) | (env & _ & [ (e & _ & ->) | (df & _ & ->) ]) ].
  { exists e. split; [done|]. discriminate. }
  { exists e. split; [done|]. discriminate. }
  rewrite Hh', Ht', Hh.
  destruct (String.eqb_spec (Args.embedding_type args) "glove50") as [?|_]; [done|].
  exists TypeError. done.
Qed.

Lemma main_without_history_fails_witness :
  @main Toy.whole_word Toy.echo Toy.glove _ Toy.labels (Toy.host 54)
    (Toy.args "bert" "625" 0 false)
  = ([CallSelectTokenizerAndModel; CallSetupEnviron; CallLoadPickle;
      CallGenerateEmbeddings], raise TypeError).
Proof.
  destruct (@main_without_history_fails Toy.whole_word Toy.echo Toy.glove _ Toy.labels
              (Toy.host 54) (Toy.args "bert" "625" 0 false) eq_refl ltac:(discriminate))
    as (e & _ & _).
  reflexivity.
Defined.

(** X19.  Without a conversation id (the default, 0) a run cannot end
    normally, unless it is the history mode of a model other than "gpt2",
    which computes nothing: [setup_environ] sets no output file, and both
    [generate_embeddings_with_context] and [gen_word2vec_embeddings] fail
    when they come to save their table. *)
Theorem main_without_conversation_id_fails
    `{Tokenizer} `{LanguageModel} `{Glove} `{Labels R} `{!Host R} (args : Args.t) :
  Args.conversation_id args = 0%Z ->
  Args.history args = false \/ Args.embedding_type args = "gpt2" ->
  exists e, (main args).2 = raise e.
Proof.
  intros Hid Hmode.
  destruct (main_cases args)
    as [ (e & _ & ->) | (classes & args' & Hsel & Hrest) ]; [by exists e|].
  destruct (select_keeps args args' classes Hsel) as (Hh & Ht & _ & Hid').
  destruct Hrest as [ (e & _ & ->) | (env & Henv & [ (e & _ & ->) | (df & _ & ->) ]) ];
    [by exists e|by exists e|].
  assert (Hfile : output_file env = None).
  { apply (setup_environ_no_output_file args' _ env Henv). by rewrite Hid'. }
  rewrite Hh, Ht, Hfile.
  destruct (Args.history args).
  - destruct Hmode as [?|Hg]; [done|]. rewrite Hg. cbn [String.eqb Ascii.eqb Bool.eqb snd].
    destruct (generate_embeddings_with_context args' None df) as [e|rows] eqn:Hgen.
    + by exists e.
    + by apply generate_needs_output_file in Hgen.
  - destruct (String.eqb (Args.embedding_type args) "glove50"); cbn [snd].
    + rewrite gen_word2vec_embeddings_result. by exists AttributeError.
    + by exists TypeError.
Qed.

Lemma main_without_conversation_id_fails_witness :
  @main Toy.whole_word Toy.echo Toy.glove _ Toy.labels (Toy.host 54)
    (Args.Build "bert-large-uncased-whole-word-masking" "gpt2" 2 false false "625" true 0)
  = ([CallSelectTokenizerAndModel; CallSetupEnviron; CallLoadPickle;
      CallGenerateEmbeddingsWithContext], raise AttributeError).
Proof.
  destruct (@main_without_conversation_id_fails
              Toy.whole_word Toy.echo Toy.glove _ Toy.labels (Toy.host 54)
              (Args.Build "bert-large-uncased-whole-word-masking" "gpt2" 2 false false
                          "625" true 0)
              eq_refl (or_intror eq_refl)) as (e & _).
  vm_compute. reflexivity.
Defined.

(** ** save_pickle *)

Lemma endswith_refl (s : string) : endswith s s = true.
Proof. destruct s; cbn [endswith]; by rewrite String.eqb_refl. Qed.

Lemma endswith_cons (c : Ascii.ascii) (s suffix : string) :
  endswith (String c s) suffix
  = if String.eqb (String c s) suffix then true else endswith s suffix.
Proof. reflexivity. Qed.

Lemma endswith_app (s suffix : string) : endswith (s ++ suffix) suffix = true.
Proof.
  induction s as [|c s IH]; [apply endswith_refl|].
  change (String c s ++ suffix)%string with (String c (s ++ suffix)%string).
  rewrite endswith_cons, IH. by destruct (String.eqb _ _).
Qed.

Lemma append_empty (s : string) : (s ++ "")%string = s.
Proof.
  induction s as [|c s IH]; [done|].
  change (String c s ++ "")%string with (String c (s ++ "")%string). by rewrite IH.
Qed.

(** X21.  The file [save_pickle] writes always carries the ".pkl" extension:
    a name that ends in ".pkl" is kept as it is, any other gets ".pkl"
    appended, and saving under the resulting name changes nothing more. *)
Theorem save_pickle_extension (file_name : string) :
  endswith (save_pickle file_name) ".pkl" = true
  /\ (endswith file_name ".pkl" = true -> save_pickle file_name = file_name)
  /\ (endswith file_name ".pkl" = false ->
      save_pickle file_name = (file_name ++ ".pkl")%string)
  /\ save_pickle (save_pickle file_name) = save_pickle file_name.
Proof.
  assert (Hends : endswith (save_pickle file_name) ".pkl" = true).
  { unfold save_pickle. destruct (endswith file_name ".pkl") eqn:He.
    - by rewrite append_empty.
    - apply endswith_app. }
  split; [exact Hends|]. split; [|split].
  - intros He. unfold save_pickle. rewrite He. apply append_empty.
  - intros He. unfold save_pickle. by rewrite He.
  - unfold save_pickle at 1. rewrite Hends. apply append_empty.
Qed.

(** ** add_glove_embeddings *)

(** X22.  [add_glove_embeddings] accepts the dimension 50 only.  For it, the
    table keeps its rows, each with the GloVe vector of its word or [None]
    for a word outside the table; a missing word never makes it fail. *)
Theorem add_glove_embeddings_dimension `{Glove} `{Labels R} (df : list R) :
  (forall dim, dim <> Some 50%Z ->
     add_glove_embeddings df dim = raise (Exception "Incorrect glove dimension"))
  /\ exists rows,
       add_glove_embeddings df (Some 50%Z) = Ok rows
       /\ map fst rows = df
       /\ Forall (fun p => p.2 = glove50 !! word p.1) rows.
Proof.
  split.
  - intros dim Hdim. unfold add_glove_embeddings. by rewrite decide_False.
  - exists (map (fun r => (r, glove50 !! word r)) df). split; [|split].
    + apply add_glove_embeddings_50.
    + rewrite map_map. apply map_id.
    + apply Forall_forall. intros p Hp. apply list_elem_of_fmap in Hp as (r & -> & _). done.
Qed.

(** ** get_token_indices *)

(** X25.  [get_token_indices] and [check_token_is_root] accept the same
    embedding types, "gpt2" and "bert": one raises exactly when the other
    does.  When it returns, the range spans [num_tokens] positions, from 0
    for "gpt2" and from 1 for "bert". *)
Theorem get_token_indices_range `{Tokenizer} `{Glove} `{Labels R}
    (args : Args.t) (num_tokens : Z) (df : list (R * option Vec * string * Z)) :
  ((exists e, get_token_indices args num_tokens = raise e)
   <-> (exists e, check_token_is_root args df = raise e))
  /\ (forall start stop,
        get_token_indices args num_tokens = Ok (start, stop) ->
        (stop - start = num_tokens)%Z
        /\ (Args.embedding_type args = "gpt2" /\ start = 0%Z
            \/ Args.embedding_type args = "bert" /\ start = 1%Z)).
Proof.
  unfold get_token_indices, check_token_is_root.
  destruct (String.eqb_spec (Args.embedding_type args) "gpt2") as [Hg|Hg].
  { split.
    - split; intros [e He]; discriminate.
    - intros start stop [= <- <-]. split; [lia|]. by left. }
  destruct (String.eqb_spec (Args.embedding_type args) "bert") as [Hb|Hb].
  { split.
    - split; intros [e He]; discriminate.
    - intros start stop [= <- <-]. split; [lia|]. by right. }
  split.
  - split; intros _; by eexists.
  - discriminate.
Qed.

(** ** The outcomes of a conversation *)

(** X5.  What a conversation with at least one token comes to.  The
    conversation step returns exactly when the context length is between 2
    and [sys.maxsize], or is one and the conversation has a single token; it
    then gives one entry per token in each of its four columns.  Otherwise
    it fails with ValueError (context length negative or above
    [sys.maxsize]: no window is made) or with IndexError (context length 0,
    or 1 with two tokens or more: the first batch has no second-to-last
    position); its own assertion on the number of embeddings never fails. *)
Theorem conversation_step_outcomes `{Tokenizer} `{LanguageModel}
    (context_length : Z) (toks : list Z) :
  toks <> [] ->
  ((exists res, conversation_step context_length toks = Ok res)
   <-> (2 ≤ context_length ≤ sys_maxsize)%Z \/ (context_length = 1%Z /\ length toks = 1))
  /\ (forall embs w p t,
        conversation_step context_length toks = Ok (embs, w, p, t) ->
        length embs = length toks /\ length w = length toks
        /\ length p = length toks /\ length t = length toks)
  /\ (forall e, conversation_step context_length toks = raise e ->
        (e = ValueError /\ ((context_length < 0)%Z \/ (sys_maxsize < context_length)%Z))
        \/ (e = IndexError
            /\ (context_length = 0%Z \/ (context_length = 1%Z /\ 2 ≤ length toks)))).
Proof.
  intros Htoks.
  assert (HN : 1 ≤ length toks) by (destruct toks; [done|cbn [length]; lia]).
  assert (Hbig : (2 <= sys_maxsize)%Z) by (by apply small_below_maxsize).
  destruct (decide ((context_length < 0)%Z \/ (sys_maxsize < context_length)%Z))
    as [Hout|Hin].
  { rewrite (conversation_step_refused _ _ Hout). split; [|split].
    - split; [intros [res Hres]; discriminate|lia].
    - discriminate.
    - intros e [= <-]. by left. }
  destruct (decide (context_length = 0%Z)) as [->|Hne0].
  { rewrite (conversation_step_zero _ Htoks). split; [|split].
    - split; [intros [res Hres]; discriminate|lia].
    - discriminate.
    - intros e [= <-]. right. split; [done|by left]. }
  destruct (decide (context_length = 1%Z)) as [->|Hne].
  { destruct toks as [|t0 [|t1 toks]]; [done| |].
    - rewrite conversation_step_one by lia. split; [|split].
      + split; [intros _; by right|intros _; by eexists].
      + intros ? ? ? ? [= <- <- <- <-]. done.
      + discriminate.
    - rewrite conversation_step_context_length_one by (cbn [length]; lia).
      split; [|split].
      + split; [intros [res Hres]; discriminate|].
        intros [?|[_ Hlen]]; [lia|]. cbn [length] in Hlen. lia.
      + discriminate.
      + intros e [= <-]. right. split; [done|]. right. cbn [length]. split; lia. }
  assert (HW : 2 ≤ Z.to_nat context_length) by lia.
  assert (Hmax : (Z.of_nat (Z.to_nat context_length) <= sys_maxsize)%Z) by lia.
  pose proof (conversation_step_columns toks (Z.to_nat context_length) HW Hmax Htoks)
    as Hstep.
  rewrite Z2Nat.id in Hstep by lia. rewrite Hstep.
  destruct (length_conversation_columns toks (Z.to_nat context_length) Htoks)
    as (L1 & L2 & L3 & L4).
  split; [|split].
  - split; [intros _; left; lia|intros _; by eexists].
  - intros embs w p t Heq.
    destruct (conversation_columns (Z.to_nat context_length) toks) as [[[e' w'] p'] t'].
    injection Heq as <- <- <- <-. done.
  - discriminate.
Qed.

Lemma conversation_step_outcomes_witness :
  [5; 7; 9]%Z <> []
  /\ ((exists res, @conversation_step Toy.whole_word Toy.echo 2 [5; 7; 9]%Z = Ok res)
      <-> (2 ≤ 2 ≤ sys_maxsize)%Z \/ (2%Z = 1%Z /\ length [5; 7; 9]%Z = 1))
  /\ @conversation_step Toy.whole_word Toy.echo 0 [5; 7; 9]%Z = raise IndexError
  /\ @conversation_step Toy.whole_word Toy.echo (2 ^ 63) [5; 7; 9]%Z = raise ValueError.
Proof.
  split; [discriminate|]. split; [|split; reflexivity].
  apply (@conversation_step_outcomes Toy.whole_word Toy.echo 2 [5; 7; 9]%Z). discriminate.
Defined.

(** ** The default command line *)

(** X26.  A run without any option stops at model selection: the default
    embedding type, "glove", is none of the five types
    [select_tokenizer_and_model] knows, so [main] exits with status 1 before
    it looks at the data. *)
Theorem main_with_default_arguments_exits
    `{Tokenizer} `{LanguageModel} `{Glove} `{Labels R} `{!Host R} :
  select_tokenizer_and_model parse_arguments_defaults = raise (SystemExit 1)
  /\ main parse_arguments_defaults = ([CallSelectTokenizerAndModel], raise (SystemExit 1)).
Proof. split; reflexivity. Qed.
